(** * Verification of the authentication gate of the [channels] backend

    The development embeds the [user] application of the repository:
    the identity verifier ([user/utils/clerkauth.py]), the middleware
    ([user/middleware/clerkauth.py]), the account model and serializer
    ([user/models.py], [user/serializers.py]) and the account views
    ([user/views.py]).

    Python values that are either [None] or a [str] are values of
    [option string]; dictionaries and object attributes are [gmap]s keyed
    by name; exceptions are an error monad; the database table and the
    calls that leave the process are a state threaded through every
    computation.

    The code stands on three libraries. The Clerk SDK is a function from a
    session reference to the outcome of [sessions.get]. Django's object
    manager is a list of rows with the unique constraints that
    [user/models.py] declares. The generic views and the model serializer of
    the REST framework are written out as the mixins they are
    ([ListModelMixin], [RetrieveModelMixin], [CreateModelMixin],
    [UpdateModelMixin], [get_object_or_404]), with the fields and validators
    that [user/serializers.py] and [user/models.py] give them. *)

From Stdlib Require Import ZArith NArith String Ascii List Bool Lia.
From stdpp Require Import base option list strings gmap sorting.
Import ListNotations.

Local Open Scope string_scope.
Local Open Scope list_scope.

(** ** Python values and exceptions *)

(** [not v] for a value that is [None] or a string. *)
Definition py_not (v : option string) : bool :=
  match v with
  | None => true
  | Some s => if decide (s = "") then true else false
  end.

(** Errors the Clerk SDK raises from [sessions.get]. *)
Inductive sdk_error : Type :=
  | ResponseValidationError
  | SDKOtherError (name : string).

(** The exception classes that travel through the code; all of them derive
    from [Exception]. *)
Inductive exn : Type :=
  | PermissionDenied
  | Http404
  | ValidationError
  | IntegrityError
  | SDKError (e : sdk_error).

(** The status the framework's exception handler answers with. *)
Definition status_of_exn (e : exn) : nat :=
  match e with
  | PermissionDenied => 403
  | Http404 => 404
  | ValidationError => 400
  | IntegrityError | SDKError _ => 500
  end.

(** ** The account model ([user/models.py]) *)

Record Account : Type := mkAccount {
  account_id : N;                 (* UUIDField, primary key, not editable *)
  clerk_id : option string;       (* TextField, null, unique *)
  username : option string;       (* CharField(16), null, unique *)
  display_pic : option string;    (* URLField, null *)
  created : Z                     (* DateTimeField, not editable *)
}.

Global Instance Account_eq_dec : EqDecision Account.
Proof. solve_decision. Defined.

(** ** Requests, responses and the world *)

Record HttpRequest : Type := mkRequest {
  path : string;
  headers : gmap string string;           (* request.headers *)
  META : gmap string string;              (* request.META *)
  data : gmap string (option string)      (* request.data, a JSON object *)
}.

Inductive field_value : Type :=
  | VNull
  | VStr (s : string)
  | VUuid (u : N)
  | VDateTime (t : Z).

(** One serialized record: the ordered dictionary of a serializer. *)
Definition representation : Type := list (string * field_value).

Inductive payload : Type :=
  | One (r : representation)
  | Many (rs : list representation).

Record Response : Type := mkResponse {
  status_code : nat;
  rdata : payload
}.

(** A session object of the identity provider, as its attributes. *)
Record Session : Type := mkSession {
  attrs : gmap string (option string)
}.

(** What [sdk.sessions.get] does for one session reference. *)
Inductive get_outcome : Type :=
  | Returned (r : option Session)
  | Raised (e : sdk_error).

(** The calls that leave the code under verification. *)
Inductive event : Type :=
  | EvSessionsGet (session_id : string)   (* sdk.sessions.get(session_id=...) *)
  | EvGetResponse (r : HttpRequest).      (* self.get_response(request) *)

Record World : Type := mkWorld {
  db : list Account;      (* rows of the account table, in insertion order *)
  trace : list event      (* outbound calls made so far, oldest first *)
}.

(** ** The computation monad: state and exceptions *)

Definition M (A : Type) : Type := World -> (exn + A) * World.

Definition ret {A} (x : A) : M A := fun w => (inr x, w).

Definition bind {A B} (m : M A) (k : A -> M B) : M B :=
  fun w =>
    match m w with
    | (inl e, w') => (inl e, w')
    | (inr x, w') => k x w'
    end.

Definition raise {A} (e : exn) : M A := fun w => (inl e, w).

(** [try: m except e: h e]; the state reached when the exception was raised
    is kept. *)
Definition try_except {A} (m : M A) (h : exn -> M A) : M A :=
  fun w =>
    match m w with
    | (inl e, w') => h e w'
    | (inr x, w') => (inr x, w')
    end.

(** The world after one more outbound call. *)
Definition logged (ev : event) (w : World) : World :=
  {| db := db w; trace := trace w ++ [ev] |}.

Definition log (ev : event) : M unit := fun w => (inr tt, logged ev w).

Definition get_db : M (list Account) := fun w => (inr (db w), w).

Definition put_db (rows : list Account) : M unit :=
  fun w => (inr tt, {| db := rows; trace := trace w |}).

Declare Scope py_scope.
Delimit Scope py_scope with py.
Notation "x <- m ;; k" := (bind m (fun x => k))
  (at level 100, m at next level, right associativity) : py_scope.
Notation "m ;;; k" := (bind m (fun _ => k))
  (at level 100, right associativity) : py_scope.
Local Open Scope py_scope.

(** ** Fixtures

    The identity provider, the accounts and the requests of
    [user/tests.py], used to run the code on concrete inputs. *)

Module Fixtures.

Definition session_of (uid : option string) : Session :=
  {| attrs := {[ "user_id" := uid ]} |}.

(** A provider that knows a few session references. *)
Definition clerk (session_id : string) : get_outcome :=
  if decide (session_id = "valid_token")
  then Returned (Some (session_of (Some "clerk_user_1")))
  else if decide (session_id = "new_user_token")
  then Returned (Some (session_of (Some "clerk_new_user")))
  else if decide (session_id = "blank_user_token")
  then Returned (Some (session_of (Some "")))
  else if decide (session_id = "token_without_user")
  then Returned (Some {| attrs := ∅ |})
  else if decide (session_id = "token_none_session")
  then Returned None
  else if decide (session_id = "unreachable_token")
  then Raised (SDKOtherError "ConnectError")
  else Raised ResponseValidationError.

Definition uuid1 : string := "00000000-0000-0000-0000-000000000001".
Definition uuid2 : string := "00000000-0000-0000-0000-000000000002".
Definition uuid9 : string := "00000000-0000-0000-0000-000000000009".

Definition parse_uuid (s : string) : option N :=
  if decide (s = uuid1) then Some 1%N
  else if decide (s = uuid2) then Some 2%N
  else if decide (s = uuid9) then Some 9%N
  else None.

Definition is_url (s : string) : bool := String.prefix "https://" s.

Definition account1 : Account :=
  {| account_id := 1; clerk_id := Some "clerk_user_1";
     username := Some "user1";
     display_pic := Some "https://example.com/user1.jpg"; created := 100 |}.

Definition account2 : Account :=
  {| account_id := 2; clerk_id := Some "clerk_user_2";
     username := Some "user2";
     display_pic := Some "https://example.com/user2.jpg"; created := 200 |}.

Definition world0 : World :=
  {| db := [account1; account2]; trace := [] |}.

Definition api_request (token : string) (body : gmap string (option string))
    : HttpRequest :=
  {| path := "/api/accounts/";
     headers := {[ "HTTP_AUTHORIZATION" := token ]};
     META := {[ "HTTP_AUTHORIZATION" := token ]};
     data := body |}.

Definition ok_response : Response := {| status_code := 200; rdata := Many [] |}.

Definition admin_request : HttpRequest :=
  {| path := "/admin/users/"; headers := ∅; META := ∅; data := ∅ |}.

(** A request that carries no credential. *)
Definition anonymous_request : HttpRequest :=
  {| path := "/api/accounts/"; headers := ∅; META := ∅; data := ∅ |}.


(** A pipeline that answers 200 and leaves the table alone. *)
Definition downstream
    : HttpRequest -> list Account -> (exn + Response) * list Account :=
  fun _ rows => (inr ok_response, rows).

End Fixtures.

(** ** The identity verifier ([user/utils/clerkauth.py]) *)

Section Channels.

(** The identity provider: the outcome of [sessions.get] for each session
    reference, fixed for the duration of a request. *)
Variable sessions_get : string -> get_outcome.

Definition sdk_sessions_get (session_id : string) : M (option Session) :=
  log (EvSessionsGet session_id) ;;;
  match sessions_get session_id with
  | Returned r => ret r
  | Raised e => raise (SDKError e)
  end.

Definition hasattr (s : Session) (name : string) : bool :=
  bool_decide (is_Some (attrs s !! name)).

Definition verify_auth_token (oauthtoken : option string) : M (option string) :=
  if py_not oauthtoken then raise PermissionDenied
  else
    request_state <-
      try_except
        (request_state <- sdk_sessions_get (default "" oauthtoken) ;;
         match request_state with
         | None => raise PermissionDenied
         | Some s =>
             if negb (hasattr s "user_id") then raise PermissionDenied
             else ret s
         end)
        (fun e =>
           match e with
           | SDKError ResponseValidationError => raise PermissionDenied
           | _ => raise e
           end) ;;
    ret (default None (attrs request_state !! "user_id")).

(** ** The middleware ([user/middleware/clerkauth.py]) *)

Definition EXEMPT_PATHS : list string := ["/admin"].

(** [self.get_response]: the rest of the request pipeline, which reads and
    writes the database and answers or raises. *)
Record ClerkAuthMiddleware : Type := mkMiddleware {
  get_response :
    HttpRequest -> list Account -> (exn + Response) * list Account
}.

Definition call_get_response
    (self : ClerkAuthMiddleware) (request : HttpRequest) : M Response :=
  log (EvGetResponse request) ;;;
  (fun w =>
     let (r, rows) := get_response self request (db w) in
     (r, {| db := rows; trace := trace w |})).

Definition ClerkAuthMiddleware_call
    (self : ClerkAuthMiddleware) (request : HttpRequest) : M Response :=
  if existsb (fun p => String.prefix p (path request)) EXEMPT_PATHS
  then call_get_response self request
  else
    let clerk_session_id := headers request !! "HTTP_AUTHORIZATION" in
    if py_not clerk_session_id then raise PermissionDenied
    else
      try_except
        (verify_auth_token clerk_session_id ;;;
         call_get_response self request)
        (fun _ => raise PermissionDenied).

(** ** The object manager of [Account] *)

Definition created_le (a b : Account) : Prop := (created a <= created b)%Z.

Global Instance created_le_dec : RelDecision created_le.
Proof. intros a b. unfold created_le. apply _. Defined.

(** [Account.objects.all()]: every row, by [Meta.ordering = ['created']]. *)
Definition objects_all : M (list Account) :=
  rows <- get_db ;; ret (merge_sort created_le rows).

(** [queryset.filter(clerk_id=c)]; for [None] the lookup is [IS NULL]. *)
Definition filter_clerk_id (c : option string) (qs : list Account)
    : list Account :=
  filter (fun a => clerk_id a = c) qs.

(** [UUIDField.to_python] on the text of a URL: the UUID it denotes, when
    it denotes one. *)
Variable uuid_of_string : string -> option N.

(** [get_object_or_404(queryset, pk=pk)]: a value that is not a UUID and a
    UUID that no row has both raise [Http404]; the primary key admits at
    most one match. *)
Definition get_object_or_404 (queryset : list Account) (pk : string)
    : M Account :=
  match uuid_of_string pk with
  | None => raise Http404
  | Some u =>
      match filter (fun a => account_id a = u) queryset with
      | [] => raise Http404
      | a :: _ => ret a
      end
  end.

(** ** The serializer ([user/serializers.py]) *)

Definition AccountSerializer_fields : list string :=
  ["account_id"; "username"; "display_pic"; "created"].

Definition nullable (v : option string) : field_value :=
  match v with None => VNull | Some s => VStr s end.

(** [getattr(instance, name)], rendered by the field of that name. *)
Definition get_attribute (instance : Account) (name : string) : field_value :=
  if decide (name = "account_id") then VUuid (account_id instance)
  else if decide (name = "clerk_id") then nullable (clerk_id instance)
  else if decide (name = "username") then nullable (username instance)
  else if decide (name = "display_pic") then nullable (display_pic instance)
  else if decide (name = "created") then VDateTime (created instance)
  else VNull.

Definition to_representation (instance : Account) : representation :=
  map (fun name => (name, get_attribute instance name))
      AccountSerializer_fields.

(** The fields of the model that are not editable are read-only in the
    serializer. *)
Definition read_only_fields : list string := ["account_id"; "created"].

Definition writable_fields : list string :=
  filter (fun name => name ∉ read_only_fields) AccountSerializer_fields.

(** [str.isspace] on one character (code points below 256). *)
Definition py_isspace (c : ascii) : bool :=
  let n := nat_of_ascii c in
  ((9 <=? n)%nat && (n <=? 13)%nat) || ((28 <=? n)%nat && (n <=? 32)%nat)
  || (n =? 133)%nat || (n =? 160)%nat.

Fixpoint lstrip (s : string) : string :=
  match s with
  | String c s' => if py_isspace c then lstrip s' else s
  | EmptyString => EmptyString
  end.

Definition strip (s : string) : string :=
  String.rev (lstrip (String.rev (lstrip s))).

Fixpoint has_null_char (s : string) : bool :=
  match s with
  | String c s' => (nat_of_ascii c =? 0)%nat || has_null_char s'
  | EmptyString => false
  end.

(** [URLValidator] of the framework, on a stripped, non-blank value. *)
Variable URLValidator : string -> bool.

(** [CharField.run_validation] with [allow_null], [allow_blank] and
    [trim_whitespace]: [None] and blank values skip the validators. *)
Definition CharField_run_validation
    (max_length : nat) (validators : string -> bool) (v : option string)
    : exn + option string :=
  match v with
  | None => inr None
  | Some s =>
      let value := strip s in
      if decide (value = "") then inr (Some "")
      else if has_null_char value then inl ValidationError
      else if (max_length <? String.length value)%nat then inl ValidationError
      else if validators value then inr (Some value)
      else inl ValidationError
  end.

(** [UniqueValidator] on [username]: no other row has the value. *)
Definition username_is_unique
    (rows : list Account) (instance : option Account) (value : string)
    : bool :=
  forallb
    (fun a =>
       if decide (username a = Some value)
       then match instance with
            | Some i => bool_decide (account_id a = account_id i)
            | None => false
            end
       else true)
    rows.

Definition validate_field
    (rows : list Account) (instance : option Account)
    (name : string) (v : option string) : exn + option string :=
  if decide (name = "username")
  then CharField_run_validation 16 (username_is_unique rows instance) v
  else CharField_run_validation 200 URLValidator v.

(** [serializer.is_valid(raise_exception=True)]: the validated data holds
    the writable fields that the request carries; every other key of the
    request is dropped. *)
Fixpoint validate_fields
    (rows : list Account) (instance : option Account)
    (body : gmap string (option string)) (names : list string)
    : exn + gmap string (option string) :=
  match names with
  | [] => inr ∅
  | name :: rest =>
      match validate_fields rows instance body rest with
      | inl e => inl e
      | inr validated =>
          match body !! name with
          | None => inr validated
          | Some v =>
              match validate_field rows instance name v with
              | inl e => inl e
              | inr v' => inr (<[name := v']> validated)
              end
          end
      end
  end.

Definition is_valid
    (instance : option Account) (body : gmap string (option string))
    : M (gmap string (option string)) :=
  rows <- get_db ;;
  match validate_fields rows instance body writable_fields with
  | inl e => raise e
  | inr validated => ret validated
  end.

(** The unique constraints of the table, for a row written next to
    [others]. *)
Definition violates_unique (others : list Account) (a : Account) : bool :=
  existsb
    (fun b =>
       bool_decide (account_id b = account_id a)
       || (bool_decide (is_Some (clerk_id a))
           && bool_decide (clerk_id b = clerk_id a))
       || (bool_decide (is_Some (username a))
           && bool_decide (username b = username a)))
    others.

(** [setattr(instance, name, value)] for every validated item. *)
Definition set_attributes
    (instance : Account) (validated : gmap string (option string))
    : Account :=
  {| account_id := account_id instance;
     clerk_id := default (clerk_id instance) (validated !! "clerk_id");
     username := default (username instance) (validated !! "username");
     display_pic :=
       default (display_pic instance) (validated !! "display_pic");
     created := created instance |}.

(** [serializer.save] without an instance: [Account.objects.create] on
    the validated data merged with the keyword arguments of [save], the
    key drawn by [uuid.uuid4] and the time read by [timezone.now] being
    given. *)
Definition serializer_create
    (validated : gmap string (option string)) (new_id : N) (now : Z)
    : M Account :=
  let blank :=
    {| account_id := new_id; clerk_id := None; username := None;
       display_pic := None; created := now |} in
  let instance := set_attributes blank validated in
  rows <- get_db ;;
  if violates_unique rows instance then raise IntegrityError
  else put_db (rows ++ [instance]) ;;; ret instance.

(** [serializer.save] with an instance: the attributes are set and the
    row of that key is written back. *)
Definition serializer_update
    (instance : Account) (validated : gmap string (option string))
    : M Account :=
  let instance' := set_attributes instance validated in
  rows <- get_db ;;
  if violates_unique
       (filter (fun b => account_id b ≠ account_id instance') rows)
       instance'
  then raise IntegrityError
  else
    put_db (map (fun b =>
                   if decide (account_id b = account_id instance')
                   then instance' else b) rows) ;;;
    ret instance'.

(** ** The generic views of the framework *)

Definition GenericAPIView_get_object
    (get_queryset : M (list Account)) (pk : string) : M Account :=
  queryset <- get_queryset ;; get_object_or_404 queryset pk.

Definition ListModelMixin_list (get_queryset : M (list Account))
    : M Response :=
  queryset <- get_queryset ;;
  ret {| status_code := 200;
         rdata := Many (map to_representation queryset) |}.

Definition RetrieveModelMixin_retrieve (get_object : M Account)
    : M Response :=
  instance <- get_object ;;
  ret {| status_code := 200; rdata := One (to_representation instance) |}.

Definition CreateModelMixin_create
    (perform_create : gmap string (option string) -> M Account)
    (request : HttpRequest) : M Response :=
  validated <- is_valid None (data request) ;;
  instance <- perform_create validated ;;
  ret {| status_code := 201; rdata := One (to_representation instance) |}.

Definition UpdateModelMixin_update
    (get_object : M Account) (request : HttpRequest) : M Response :=
  instance <- get_object ;;
  validated <- is_valid (Some instance) (data request) ;;
  instance' <- serializer_update instance validated ;;
  ret {| status_code := 200; rdata := One (to_representation instance') |}.

(** ** The views ([user/views.py]) *)

Definition AccountViewset_get_queryset (request : HttpRequest)
    : M (list Account) :=
  try_except
    (let oauthToken := META request !! "HTTP_AUTHORIZATION" in
     clerkid <- verify_auth_token oauthToken ;;
     queryset <- objects_all ;;
     ret (filter_clerk_id clerkid queryset))
    (fun _ => raise PermissionDenied).

Definition AccountViewset_get_object (request : HttpRequest) (pk : string)
    : M Account :=
  GenericAPIView_get_object (AccountViewset_get_queryset request) pk.

Definition AccountViewset_perform_create
    (request : HttpRequest) (new_id : N) (now : Z)
    (validated : gmap string (option string)) : M Account :=
  try_except
    (let oauthToken := META request !! "HTTP_AUTHORIZATION" in
     clerkid <- verify_auth_token oauthToken ;;
     serializer_create (<["clerk_id" := clerkid]> validated) new_id now)
    (fun _ => raise PermissionDenied).

Definition AccountViewset_partial_update
    (request : HttpRequest) (pk : string) : M Response :=
  try_except
    (let oauthToken := META request !! "HTTP_AUTHORIZATION" in
     clerkid <- verify_auth_token oauthToken ;;
     account <- AccountViewset_get_object request pk ;;
     if decide (clerk_id account ≠ clerkid) then raise PermissionDenied
     else
       UpdateModelMixin_update
         (AccountViewset_get_object request pk) request)
    (fun _ => raise PermissionDenied).

(** The actions of [AccountViewset] that the class inherits. *)
Definition AccountViewset_list (request : HttpRequest) : M Response :=
  ListModelMixin_list (AccountViewset_get_queryset request).

Definition AccountViewset_retrieve (request : HttpRequest) (pk : string)
    : M Response :=
  RetrieveModelMixin_retrieve (AccountViewset_get_object request pk).

Definition AccountViewset_create
    (request : HttpRequest) (new_id : N) (now : Z) : M Response :=
  CreateModelMixin_create
    (AccountViewset_perform_create request new_id now) request.

Definition AccountsListView_list (request : HttpRequest) : M Response :=
  try_except
    (let oauthToken := META request !! "HTTP_AUTHORIZATION" in
     verify_auth_token oauthToken ;;;
     ListModelMixin_list objects_all)
    (fun _ => raise PermissionDenied).

Definition AccountRetrieveView_get_object
    (request : HttpRequest) (pk : string) : M Account :=
  try_except
    (let oauthToken := META request !! "HTTP_AUTHORIZATION" in
     verify_auth_token oauthToken ;;;
     GenericAPIView_get_object objects_all pk)
    (fun _ => raise PermissionDenied).

Definition AccountRetrieveView_retrieve
    (request : HttpRequest) (pk : string) : M Response :=
  RetrieveModelMixin_retrieve (AccountRetrieveView_get_object request pk).

(** ** The update action that [AccountViewset] inherits

    [PUT] on the detail route runs [UpdateModelMixin.update] without the
    [partial] flag; no field of the serializer is required, so the body is
    validated as for a partial update. The view does not wrap it. *)

Definition AccountViewset_update (request : HttpRequest) (pk : string)
    : M Response :=
  UpdateModelMixin_update (AccountViewset_get_object request pk) request.

(** ** The routes ([user/urls.py]) *)

(** A route of [path]: literal text and [<str:name>] captures. *)
Inductive route_part : Type :=
  | Lit (text : string)
  | StrParam (name : string).

Definition kwargs : Type := list (string * string).

(** The capture [<str:name>] followed by the rest of the route: one or
    more characters other than ['/'], the longest run first. *)
Fixpoint match_param (rest : string -> option kwargs) (name : string)
    (taken : string) (s : string) : option kwargs :=
  match s with
  | EmptyString => None
  | String c s' =>
      if decide (c = "/"%char) then None
      else
        let taken' := taken +:+ String c EmptyString in
        match match_param rest name taken' s' with
        | Some kw => Some kw
        | None =>
            match rest s' with
            | Some kw => Some ((name, taken') :: kw)
            | None => None
            end
        end
  end.

(** A route matches a whole path: it is anchored at both ends. *)
Fixpoint match_route (parts : list route_part) (s : string)
    : option kwargs :=
  match parts with
  | [] => if decide (s = "") then Some [] else None
  | Lit text :: rest =>
      if String.prefix text s
      then match_route rest
             (String.substring (String.length text)
                (String.length s - String.length text) s)
      else None
  | StrParam name :: rest => match_param (match_route rest) name "" s
  end.

Inductive view : Type :=
  | AccountViewset_collection   (* as_view of get: list, post: create *)
  | AccountViewset_detail       (* as_view of get: retrieve, put: update,
                                   patch: partial_update *)
  | AccountsListView
  | AccountRetrieveView.

Definition urlpatterns : list (list route_part * view * string) :=
  [ ([], AccountViewset_collection, "accounts-list");
    ([StrParam "pk"; Lit "/"], AccountViewset_detail, "accounts-detail");
    ([Lit "list/"], AccountsListView, "accounts-list");
    ([Lit "retrieve/"; StrParam "pk"; Lit "/"], AccountRetrieveView,
     "accounts-retrieve") ].

(** The resolver: the first pattern that matches, in the order of the
    list. *)
Fixpoint resolve_in (patterns : list (list route_part * view * string))
    (s : string) : option (view * kwargs) :=
  match patterns with
  | [] => None
  | (parts, v, _) :: rest =>
      match match_route parts s with
      | Some kw => Some (v, kw)
      | None => resolve_in rest s
      end
  end.

Definition resolve (s : string) : option (view * kwargs) :=
  resolve_in urlpatterns s.

Inductive http_method : Type := GET | HEAD | POST | PUT | PATCH | DELETE.

Inductive action : Type :=
  | ActViewsetList
  | ActViewsetCreate
  | ActViewsetRetrieve (pk : string)
  | ActViewsetUpdate (pk : string)
  | ActViewsetPartialUpdate (pk : string)
  | ActListViewList
  | ActRetrieveViewRetrieve (pk : string).

Definition kwarg (kw : kwargs) (name : string) : string :=
  match list_find (fun p => fst p = name) kw with
  | Some (_, (_, v)) => v
  | None => ""
  end.

(** The handler of a view for a method; [None] is a method the view does
    not allow. [HEAD] is served by the handler of [GET]. *)
Definition dispatch (v : view) (kw : kwargs) (m : http_method)
    : option action :=
  match v, m with
  | AccountViewset_collection, (GET | HEAD) => Some ActViewsetList
  | AccountViewset_collection, POST => Some ActViewsetCreate
  | AccountViewset_detail, (GET | HEAD) =>
      Some (ActViewsetRetrieve (kwarg kw "pk"))
  | AccountViewset_detail, PUT => Some (ActViewsetUpdate (kwarg kw "pk"))
  | AccountViewset_detail, PATCH =>
      Some (ActViewsetPartialUpdate (kwarg kw "pk"))
  | AccountsListView, (GET | HEAD) => Some ActListViewList
  | AccountRetrieveView, (GET | HEAD) =>
      Some (ActRetrieveViewRetrieve (kwarg kw "pk"))
  | _, _ => None
  end.

Definition run_action (a : action) (request : HttpRequest)
    (new_id : N) (now : Z) : M Response :=
  match a with
  | ActViewsetList => AccountViewset_list request
  | ActViewsetCreate => AccountViewset_create request new_id now
  | ActViewsetRetrieve pk => AccountViewset_retrieve request pk
  | ActViewsetUpdate pk => AccountViewset_update request pk
  | ActViewsetPartialUpdate pk => AccountViewset_partial_update request pk
  | ActListViewList => AccountsListView_list request
  | ActRetrieveViewRetrieve pk => AccountRetrieveView_retrieve request pk
  end.

(** ** The text of an account ([Account.__str__], [user/models.py]) *)

Definition hex_digit (n : N) : ascii :=
  match n with
  | 0 => "0" | 1 => "1" | 2 => "2" | 3 => "3" | 4 => "4" | 5 => "5"
  | 6 => "6" | 7 => "7" | 8 => "8" | 9 => "9" | 10 => "a" | 11 => "b"
  | 12 => "c" | 13 => "d" | 14 => "e" | _ => "f"
  end%N%char.

(** The [digits] low hexadecimal digits of [n], the most significant
    first. *)
Fixpoint hex_of (digits : nat) (n : N) : string :=
  match digits with
  | O => EmptyString
  | S k => hex_of k (n / 16) +:+ String (hex_digit (n mod 16)) EmptyString
  end.

(** [str] of a UUID: the 32 hexadecimal digits of its 128 bits, grouped
    8-4-4-4-12. *)
Definition uuid_str (u : N) : string :=
  let hex := hex_of 32 u in
  String.substring 0 8 hex +:+ "-" +:+ String.substring 8 4 hex +:+ "-"
  +:+ String.substring 12 4 hex +:+ "-" +:+ String.substring 16 4 hex
  +:+ "-" +:+ String.substring 20 12 hex.

(** [s.split(sep)] for a separator of one character. *)
Fixpoint py_split (sep : ascii) (s : string) : list string :=
  match s with
  | EmptyString => [EmptyString]
  | String c s' =>
      if decide (c = sep) then EmptyString :: py_split sep s'
      else
        match py_split sep s' with
        | piece :: pieces => String c piece :: pieces
        | [] => [String c EmptyString]
        end
  end.

(** [self.username if self.username else
    str(self.account_id).split('-')[0]]; the index [0] of a list that has no
    element would raise, which is [None] here. *)
Definition Account__str__ (self : Account) : option string :=
  if py_not (username self)
  then py_split "-" (uuid_str (account_id self)) !! 0%nat
  else username self.

(** ** The validation of a new message
    ([MessageCreateSerializer.validate], [chat/serializers.py]) *)

(** The values of the validated data of a message: text, a chat found by
    its key, or [None]. *)
Inductive message_value : Type :=
  | MNone
  | MText (s : string)
  | MChat (chat_id : N).

Global Instance message_value_eq_dec : EqDecision message_value.
Proof. solve_decision. Defined.

(** [not v] for [v = data.get(key)], which is [None] for a key that is not
    there; a model instance is true. *)
Definition message_not (v : option message_value) : bool :=
  match v with
  | None | Some MNone => true
  | Some (MText s) => if decide (s = "") then true else false
  | Some (MChat _) => false
  end.

Inductive ValueError : Type :=
  | user_chat_is_required
  | group_chat_is_required.

Definition MessageCreateSerializer_validate
    (data : gmap string message_value)
    : ValueError + gmap string message_value :=
  let chat_type := data !! "chat_type" in
  let user_chat := data !! "user_chat" in
  let group_chat := data !! "group_chat" in
  if bool_decide (chat_type = Some (MText "user")) && message_not user_chat
  then inl user_chat_is_required
  else if bool_decide (chat_type = Some (MText "group"))
          && message_not group_chat
  then inl group_chat_is_required
  else inr data.

(** ** Observations on a run *)

(** The verdict of the verifier on a non-empty session reference, read off
    the provider's outcome. *)
Definition verdict (t : string) : exn + option string :=
  match sessions_get t with
  | Returned None => inl PermissionDenied
  | Returned (Some s) =>
      match attrs s !! "user_id" with
      | Some u => inr u
      | None => inl PermissionDenied
      end
  | Raised ResponseValidationError => inl PermissionDenied
  | Raised (SDKOtherError n) => inl (SDKError (SDKOtherError n))
  end.

(** The outbound calls a computation adds to the trace. *)
Definition emitted {A} (m : M A) (w : World) : list event :=
  drop (length (trace w)) (trace (snd (m w))).

(** The gate hands the request to the rest of the pipeline. *)
Definition forwards
    (self : ClerkAuthMiddleware) (request : HttpRequest) (w : World)
    : Prop :=
  EvGetResponse request ∈ emitted (ClerkAuthMiddleware_call self request) w.

(** The records that an action is asked for: the record of the key in
    its route, the record created under the key drawn for it, or, for a
    list action, any record. *)
Definition addresses (a : action) (new_id : N) (r : Account) : Prop :=
  match a with
  | ActViewsetList | ActListViewList => True
  | ActViewsetCreate => account_id r = new_id
  | ActViewsetRetrieve pk | ActViewsetUpdate pk
  | ActViewsetPartialUpdate pk | ActRetrieveViewRetrieve pk =>
      uuid_of_string pk = Some (account_id r)
  end.

(** The payload of a response of an action is the output of the serializer
    on the records [rows] and nothing else: their list for a list action,
    the one record for every other action. *)
Definition shows (a : action) (resp : Response) (rows : list Account)
    : Prop :=
  match a with
  | ActViewsetList | ActListViewList =>
      rdata resp = Many (map to_representation rows)
  | _ => exists r, rows = [r] /\ rdata resp = One (to_representation r)
  end.

(** Two records that differ in their [clerk_id] at most. *)
Definition same_but_owner (a b : Account) : Prop :=
  account_id a = account_id b /\ username a = username b
  /\ display_pic a = display_pic b /\ created a = created b.

(** The same request with another body. *)
Definition with_data (request : HttpRequest)
    (body : gmap string (option string)) : HttpRequest :=
  {| path := path request; headers := headers request;
     META := META request; data := body |}.

(** The rows that keep their place when the row of [instance] is written. *)
Definition other_rows (instance : Account) (rows : list Account)
    : list Account :=
  filter (fun b => account_id b <> account_id instance) rows.

(** The table after the row of [instance] is written back. *)
Definition write_row (instance : Account) (rows : list Account)
    : list Account :=
  map (fun b =>
         if decide (account_id b = account_id instance)
         then instance else b) rows.

(** The primary key constraint of the table. *)
Definition pk_unique (rows : list Account) : Prop :=
  NoDup (account_id <$> rows).

(** A list endpoint answers, to a caller verified as [u], the records
    whose owner is [u] and no other. *)
Definition lists_exactly_owned (endpoint : HttpRequest -> M Response)
    : Prop :=
  forall request w u,
    fst (verify_auth_token (META request !! "HTTP_AUTHORIZATION") w)
      = inr u ->
    exists rs,
      fst (endpoint request w)
        = inr {| status_code := 200;
                 rdata := Many (map to_representation rs) |}
      /\ forall a, a ∈ rs <-> a ∈ db w /\ clerk_id a = u.

(** A list endpoint answers every record of the table to any verified
    caller. *)
Definition lists_all (endpoint : HttpRequest -> M Response) : Prop :=
  forall request w u,
    fst (verify_auth_token (META request !! "HTTP_AUTHORIZATION") w)
      = inr u ->
    exists rs,
      fst (endpoint request w)
        = inr {| status_code := 200;
                 rdata := Many (map to_representation rs) |}
      /\ forall a, a ∈ rs <-> a ∈ db w.

(** [c not in s]. *)
Fixpoint lacks (c : ascii) (s : string) : bool :=
  match s with
  | EmptyString => true
  | String c' s' => negb (bool_decide (c' = c)) && lacks c s'
  end.

(** A value of [<str:pk>]: not empty and without ['/']. *)
Definition is_segment (pk : string) : Prop :=
  pk <> "" /\ lacks "/" pk = true.

(** The unique constraints of [clerk_id] and [username]: two rows with the
    same value that is not [None] are the same row. *)
Definition unique_when_set (field : Account -> option string)
    (rows : list Account) : Prop :=
  forall a b, a ∈ rows -> b ∈ rows ->
    is_Some (field a) -> field a = field b -> account_id a = account_id b.

Definition table_constraints (rows : list Account) : Prop :=
  pk_unique rows
  /\ unique_when_set clerk_id rows
  /\ unique_when_set username rows.

(** [max_length=16] on [username], for every row. *)
Definition usernames_bounded (rows : list Account) : Prop :=
  forall a s, a ∈ rows -> username a = Some s -> String.length s <= 16.

(** A handler as the rest of the pipeline of the middleware, on the runs on
    which the handler answers: it runs on the table it is given, and its
    own outbound calls are its own. A handler that raises is outside of
    what this stands for: the framework answers the exception of a handler
    with an error response of its own, whereas here the exception is handed
    on as it is. *)
Definition as_pipeline (handler : HttpRequest -> M Response)
    : HttpRequest -> list Account -> (exn + Response) * list Account :=
  fun request rows =>
    let (r, w') := handler request {| db := rows; trace := [] |} in
    (r, db w').

(** A computation is refused: it raises [PermissionDenied] and the table is
    as it was. *)
Definition refuses {A} (m : M A) (w : World) : Prop :=
  fst (m w) = inl PermissionDenied /\ db (snd (m w)) = db w.

(** * Properties *)

(** ** The verifier *)

Lemma py_not_true_inv (v : option string) :
  py_not v = true <-> v = None \/ v = Some "".
Proof.
  destruct v as [s|]; simpl.
  - destruct (decide (s = "")) as [->|Hs]; split.
    + intros _. right. reflexivity.
    + reflexivity.
    + discriminate.
    + intros [H|H]; [discriminate | congruence].
  - split; [intros _; left|]; reflexivity.
Qed.

Lemma py_not_false_inv (v : option string) :
  py_not v = false <-> exists t, v = Some t /\ t <> "".
Proof.
  destruct v as [s|]; simpl.
  - destruct (decide (s = "")) as [->|Hs]; split.
    + discriminate.
    + intros (t & Heq & Ht). congruence.
    + intros _. exists s. split; [reflexivity | assumption].
    + reflexivity.
  - split; [discriminate | intros (t & Heq & _); discriminate].
Qed.

Lemma verify_auth_token_falsy oauthtoken w :
  py_not oauthtoken = true ->
  verify_auth_token oauthtoken w = (inl PermissionDenied, w).
Proof. intros H. unfold verify_auth_token. rewrite H. reflexivity. Qed.

Lemma verify_auth_token_run t w :
  t <> "" ->
  verify_auth_token (Some t) w = (verdict t, logged (EvSessionsGet t) w).
Proof.
  intros Ht. unfold verify_auth_token, verdict. simpl.
  destruct (decide (t = "")) as [?|_]; [contradiction|].
  unfold bind, try_except, sdk_sessions_get, bind, log. simpl.
  destruct (sessions_get t) as [[s|]|[|n]]; simpl; try reflexivity.
  unfold hasattr.
  destruct (attrs s !! "user_id") as [u|] eqn:Hu; simpl.
  - rewrite Hu. reflexivity.
  - reflexivity.
Qed.

(** C5 (amended). The verifier fails with [PermissionDenied] on an absent
    or empty token and then makes no call to the provider. On any other
    token it makes exactly one call, and it fails with [PermissionDenied]
    exactly when the provider returns no session, returns a session without
    a [user_id] attribute, or raises [ResponseValidationError]; any other
    error of the provider call leaves the verifier unchanged, as the error
    it is; otherwise the verifier returns the [user_id] of the session. *)
Theorem verify_auth_token_outcomes (oauthtoken : option string) (w : World) :
  (py_not oauthtoken = true ->
     verify_auth_token oauthtoken w = (inl PermissionDenied, w))
  /\ (forall t, oauthtoken = Some t -> t <> "" ->
        snd (verify_auth_token oauthtoken w) = logged (EvSessionsGet t) w
        /\ (fst (verify_auth_token oauthtoken w) = inl PermissionDenied <->
              sessions_get t = Returned None
              \/ (exists s, sessions_get t = Returned (Some s)
                            /\ attrs s !! "user_id" = None)
              \/ sessions_get t = Raised ResponseValidationError)
        /\ (forall n, sessions_get t = Raised (SDKOtherError n) ->
              fst (verify_auth_token oauthtoken w)
                = inl (SDKError (SDKOtherError n)))
        /\ (forall s u, sessions_get t = Returned (Some s) ->
              attrs s !! "user_id" = Some u ->
              fst (verify_auth_token oauthtoken w) = inr u)).
Proof.
  split; [apply verify_auth_token_falsy|].
  intros t -> Ht. rewrite (verify_auth_token_run t w Ht). simpl.
  unfold verdict. repeat split.
  - destruct (sessions_get t) as [[s|]|[|n]]; try discriminate; auto.
    destruct (attrs s !! "user_id") eqn:Hu; [discriminate|].
    intros _. right. left. exists s. auto.
  - intros [H|[(s & H & Hu)|H]]; rewrite H; [|rewrite Hu|]; reflexivity.
  - intros n H. rewrite H. reflexivity.
  - intros s u H Hu. rewrite H, Hu. reflexivity.
Qed.

(** ** The middleware *)

Lemma emitted_app {A} (m : M A) (w : World) (evs : list event) :
  trace (snd (m w)) = trace w ++ evs -> emitted m w = evs.
Proof. intros H. unfold emitted. rewrite H. apply drop_app_length. Qed.

Lemma emitted_nil {A} (m : M A) (w : World) :
  snd (m w) = w -> emitted m w = [].
Proof.
  intros H. apply emitted_app. rewrite H. symmetry. apply app_nil_r.
Qed.

Lemma call_get_response_run self request w :
  call_get_response self request w =
    (fst (get_response self request (db w)),
     {| db := snd (get_response self request (db w));
        trace := trace w ++ [EvGetResponse request] |}).
Proof.
  unfold call_get_response, bind, log, logged. simpl.
  destruct (get_response self request (db w)); reflexivity.
Qed.

Lemma exempt_iff (request : HttpRequest) :
  existsb (fun p => String.prefix p (path request)) EXEMPT_PATHS
    = String.prefix "/admin" (path request).
Proof. simpl. apply orb_false_r. Qed.

(** The run of the gate on a request outside the exempt paths that carries
    a non-empty header. *)
Lemma gate_run_checked self request w t :
  String.prefix "/admin" (path request) = false ->
  headers request !! "HTTP_AUTHORIZATION" = Some t -> t <> "" ->
  ClerkAuthMiddleware_call self request w =
    match verdict t with
    | inl _ => (inl PermissionDenied, logged (EvSessionsGet t) w)
    | inr _ =>
        (match fst (get_response self request (db w)) with
         | inl _ => inl PermissionDenied
         | inr r => inr r
         end,
         {| db := snd (get_response self request (db w));
            trace := trace w ++ [EvSessionsGet t; EvGetResponse request] |})
    end.
Proof.
  intros Hp Hh Ht. unfold ClerkAuthMiddleware_call.
  rewrite exempt_iff, Hp, Hh. simpl.
  destruct (decide (t = "")) as [?|_]; [contradiction|].
  unfold try_except, bind. rewrite (verify_auth_token_run t w Ht).
  destruct (verdict t) as [e|u]; [reflexivity|].
  rewrite call_get_response_run. simpl. rewrite <- app_assoc. simpl.
  destruct (fst (get_response self request (db w))); reflexivity.
Qed.

Lemma gate_run_no_header self request w :
  String.prefix "/admin" (path request) = false ->
  py_not (headers request !! "HTTP_AUTHORIZATION") = true ->
  ClerkAuthMiddleware_call self request w = (inl PermissionDenied, w).
Proof.
  intros Hp Hh. unfold ClerkAuthMiddleware_call.
  rewrite exempt_iff, Hp, Hh. reflexivity.
Qed.

Lemma gate_run_exempt self request w :
  String.prefix "/admin" (path request) = true ->
  ClerkAuthMiddleware_call self request w =
    (fst (get_response self request (db w)),
     {| db := snd (get_response self request (db w));
        trace := trace w ++ [EvGetResponse request] |}).
Proof.
  intros Hp. unfold ClerkAuthMiddleware_call.
  rewrite exempt_iff, Hp. apply call_get_response_run.
Qed.

Lemma not_elem_of_sessions_get request t :
  EvGetResponse request ∉ [EvSessionsGet t].
Proof.
  intros H. apply list_elem_of_singleton in H. discriminate.
Qed.

(** When the gate hands a request over, in terms of the provider. *)
Lemma forwards_iff self request w :
  forwards self request w <->
    String.prefix "/admin" (path request) = true
    \/ exists t, headers request !! "HTTP_AUTHORIZATION" = Some t
                 /\ t <> "" /\ exists u, verdict t = inr u.
Proof.
  unfold forwards.
  destruct (String.prefix "/admin" (path request)) eqn:Hp.
  - rewrite (emitted_app _ w [EvGetResponse request])
      by (rewrite gate_run_exempt by assumption; reflexivity).
    split; [auto|]. intros _. apply list_elem_of_singleton. reflexivity.
  - destruct (py_not (headers request !! "HTTP_AUTHORIZATION")) eqn:Hh.
    + rewrite (emitted_nil _ w)
        by (rewrite gate_run_no_header by assumption; reflexivity).
      split; [intros H; inversion H|].
      intros [?|(t & Ht & Hne & _)]; [discriminate|].
      apply py_not_true_inv in Hh. destruct Hh; congruence.
    + apply py_not_false_inv in Hh. destruct Hh as (t & Ht & Hne).
      destruct (verdict t) as [e|u] eqn:Hv.
      * rewrite (emitted_app _ w [EvSessionsGet t])
          by (rewrite (gate_run_checked self request w t) by assumption;
              rewrite Hv; reflexivity).
        split; [intros H; destruct (not_elem_of_sessions_get _ _ H)|].
        intros [?|(t' & Ht' & _ & u & Hu)]; [discriminate|].
        congruence.
      * rewrite (emitted_app _ w [EvSessionsGet t; EvGetResponse request])
          by (rewrite (gate_run_checked self request w t) by assumption;
              rewrite Hv; reflexivity).
        split; [intros _; right; eauto|].
        intros _. apply list_elem_of_In. simpl. auto.
Qed.

(** C6. A request whose path starts with ['/admin'] is handed to the rest
    of the pipeline as it is, whatever its headers hold: the gate's result
    is the pipeline's result on that request, and the only outbound call
    of the gate is that hand-over, so the verifier is not invoked. *)
Theorem exempt_path_bypasses_verifier self request w :
  String.prefix "/admin" (path request) = true ->
  ClerkAuthMiddleware_call self request w =
    (fst (get_response self request (db w)),
     {| db := snd (get_response self request (db w));
        trace := trace w ++ [EvGetResponse request] |})
  /\ emitted (ClerkAuthMiddleware_call self request) w
     = [EvGetResponse request]
  /\ forwards self request w.
Proof.
  intros Hp. split; [apply gate_run_exempt; assumption|]. split.
  - apply emitted_app. rewrite gate_run_exempt by assumption. reflexivity.
  - apply forwards_iff. left. assumption.
Qed.



(** ** The table and its querysets *)

Lemma elem_of_sorted (a : Account) (rows : list Account) :
  a ∈ merge_sort created_le rows <-> a ∈ rows.
Proof. rewrite (merge_sort_Permutation created_le rows). reflexivity. Qed.

Lemma pk_unique_sorted (rows : list Account) :
  pk_unique rows -> pk_unique (merge_sort created_le rows).
Proof.
  unfold pk_unique. rewrite (merge_sort_Permutation created_le rows). auto.
Qed.

Lemma pk_unique_filter (P : Account -> Prop) `{forall a, Decision (P a)}
    (rows : list Account) :
  pk_unique rows -> pk_unique (filter P rows).
Proof.
  unfold pk_unique. induction rows as [|x rows IH]; [auto|].
  rewrite fmap_cons, NoDup_cons. intros [Hx Hnd].
  rewrite filter_cons. destruct (decide (P x)); [|auto].
  rewrite fmap_cons, NoDup_cons. split; [|auto].
  intros Hin. apply Hx. apply list_elem_of_fmap in Hin.
  destruct Hin as (b & Hb & Hbin). apply list_elem_of_filter in Hbin.
  rewrite Hb. apply list_elem_of_fmap_2. tauto.
Qed.

Lemma filter_none (P : Account -> Prop) `{forall a, Decision (P a)}
    (rows : list Account) :
  (forall b, b ∈ rows -> ~ P b) -> filter P rows = [].
Proof.
  induction rows as [|x rows IH]; intros Hno; [reflexivity|].
  rewrite filter_cons_False by (apply Hno; left).
  apply IH. intros b Hb. apply Hno. right. assumption.
Qed.

Lemma filter_pk_found (rows : list Account) (a : Account) :
  pk_unique rows -> a ∈ rows ->
  filter (fun b => account_id b = account_id a) rows = [a].
Proof.
  unfold pk_unique. induction rows as [|x rows IH]; intros Hnd Hin.
  - inversion Hin.
  - rewrite fmap_cons, NoDup_cons in Hnd. destruct Hnd as [Hx Hnd].
    apply elem_of_cons in Hin. destruct Hin as [->|Hin].
    + rewrite filter_cons_True by reflexivity. f_equal.
      apply filter_none. intros b Hb Heq. apply Hx. rewrite <- Heq.
      apply list_elem_of_fmap_2. assumption.
    + rewrite filter_cons_False; [auto|].
      intros Heq. apply Hx. rewrite Heq.
      apply list_elem_of_fmap_2. assumption.
Qed.

Lemma pk_unique_inj (rows : list Account) (a b : Account) :
  pk_unique rows -> a ∈ rows -> b ∈ rows ->
  account_id b = account_id a -> b = a.
Proof.
  intros Hnd Ha Hb Heq.
  assert (Hf : b ∈ filter (fun c => account_id c = account_id a) rows)
    by (apply list_elem_of_filter; auto).
  rewrite (filter_pk_found rows a Hnd Ha) in Hf.
  apply list_elem_of_singleton in Hf. assumption.
Qed.

Lemma elem_of_owned (u : option string) (a : Account) (rows : list Account) :
  a ∈ filter_clerk_id u (merge_sort created_le rows)
  <-> a ∈ rows /\ clerk_id a = u.
Proof.
  unfold filter_clerk_id. rewrite list_elem_of_filter, elem_of_sorted. tauto.
Qed.

Lemma objects_all_run (w : World) :
  objects_all w = (inr (merge_sort created_le (db w)), w).
Proof. reflexivity. Qed.

(** A credential that verifies is a non-empty session reference on which
    the verdict is an identifier. *)
Lemma verified_inv (oauthtoken : option string) (w : World) u :
  fst (verify_auth_token oauthtoken w) = inr u ->
  exists t, oauthtoken = Some t /\ t <> "" /\ verdict t = inr u.
Proof.
  intros H. destruct (py_not oauthtoken) eqn:Hn.
  - rewrite verify_auth_token_falsy in H by assumption. discriminate.
  - apply py_not_false_inv in Hn. destruct Hn as (t & -> & Ht).
    rewrite verify_auth_token_run in H by assumption. eauto.
Qed.

Lemma verify_auth_token_ok t u w :
  t <> "" -> verdict t = inr u ->
  verify_auth_token (Some t) w = (inr u, logged (EvSessionsGet t) w).
Proof. intros Ht Hv. rewrite verify_auth_token_run, Hv; auto. Qed.

(** ** The views *)

Section Verified.

(** A request whose credential, read from [META], verifies to [u]. *)
Variables (request : HttpRequest) (t : string) (u : option string).
Hypothesis Htoken : META request !! "HTTP_AUTHORIZATION" = Some t.
Hypothesis Hne : t <> "".
Hypothesis Hverdict : verdict t = inr u.

Lemma get_queryset_run w :
  AccountViewset_get_queryset request w =
    (inr (filter_clerk_id u (merge_sort created_le (db w))),
     logged (EvSessionsGet t) w).
Proof.
  unfold AccountViewset_get_queryset, try_except, bind.
  rewrite Htoken, (verify_auth_token_ok t u w Hne Hverdict).
  reflexivity.
Qed.

Lemma get_object_or_404_run queryset pk w :
  get_object_or_404 queryset pk w =
    (match uuid_of_string pk with
     | None => inl Http404
     | Some i =>
         match filter (fun a => account_id a = i) queryset with
         | [] => inl Http404
         | a :: _ => inr a
         end
     end, w).
Proof.
  unfold get_object_or_404.
  destruct (uuid_of_string pk) as [i|]; [|reflexivity].
  destruct (filter _ queryset); reflexivity.
Qed.

Lemma AccountViewset_get_object_run pk w :
  AccountViewset_get_object request pk w =
    (match uuid_of_string pk with
     | None => inl Http404
     | Some i =>
         match filter (fun a => account_id a = i)
                 (filter_clerk_id u (merge_sort created_le (db w))) with
         | [] => inl Http404
         | a :: _ => inr a
         end
     end, logged (EvSessionsGet t) w).
Proof.
  unfold AccountViewset_get_object, GenericAPIView_get_object, bind.
  rewrite get_queryset_run, get_object_or_404_run. reflexivity.
Qed.

Lemma AccountRetrieveView_get_object_run pk w :
  AccountRetrieveView_get_object request pk w =
    (match uuid_of_string pk with
     | None => inl PermissionDenied
     | Some i =>
         match filter (fun a => account_id a = i)
                 (merge_sort created_le (db w)) with
         | [] => inl PermissionDenied
         | a :: _ => inr a
         end
     end, logged (EvSessionsGet t) w).
Proof.
  unfold AccountRetrieveView_get_object, try_except, bind.
  rewrite Htoken, (verify_auth_token_ok t u w Hne Hverdict).
  unfold GenericAPIView_get_object, bind.
  rewrite objects_all_run, get_object_or_404_run.
  destruct (uuid_of_string pk) as [i|]; [|reflexivity].
  destruct (filter _ _); reflexivity.
Qed.

Lemma AccountViewset_list_run w :
  AccountViewset_list request w =
    (inr {| status_code := 200;
            rdata := Many (map to_representation
                             (filter_clerk_id u
                                (merge_sort created_le (db w)))) |},
     logged (EvSessionsGet t) w).
Proof.
  unfold AccountViewset_list, ListModelMixin_list, bind.
  rewrite get_queryset_run. reflexivity.
Qed.

Lemma AccountsListView_list_run w :
  AccountsListView_list request w =
    (inr {| status_code := 200;
            rdata := Many (map to_representation
                             (merge_sort created_le (db w))) |},
     logged (EvSessionsGet t) w).
Proof.
  unfold AccountsListView_list, try_except, bind.
  rewrite Htoken, (verify_auth_token_ok t u w Hne Hverdict).
  reflexivity.
Qed.

End Verified.

(** C1 (amended). For a caller whose credential verifies to [u], the list
    action of [AccountViewset] answers exactly the records whose
    [clerk_id] is [u]; the list action of [AccountsListView] answers every
    record of the table. *)
Theorem list_endpoints_scope :
  lists_exactly_owned AccountViewset_list /\ lists_all AccountsListView_list.
Proof.
  split; intros request w u Hv;
    apply verified_inv in Hv; destruct Hv as (t & Ht & Hne & Hv).
  - exists (filter_clerk_id u (merge_sort created_le (db w))).
    rewrite (AccountViewset_list_run request t u Ht Hne Hv).
    split; [reflexivity|]. intros a. apply elem_of_owned.
  - exists (merge_sort created_le (db w)).
    rewrite (AccountsListView_list_run request t u Ht Hne Hv).
    split; [reflexivity|]. intros a. apply elem_of_sorted.
Qed.

(** C7 (amended). For a caller whose credential verifies to [u]:
    [AccountRetrieveView] answers the payload of the record with the
    requested key whenever that record exists, whoever owns it;
    the retrieve action of [AccountViewset] answers the payload when the
    record exists and is owned by [u], and 404 when no record with that key
    is owned by [u]. *)
Theorem retrieve_endpoints_scope request pk w u :
  fst (verify_auth_token (META request !! "HTTP_AUTHORIZATION") w) = inr u ->
  pk_unique (db w) ->
  (forall a, a ∈ db w -> uuid_of_string pk = Some (account_id a) ->
     fst (AccountRetrieveView_retrieve request pk w)
       = inr {| status_code := 200; rdata := One (to_representation a) |})
  /\ (forall a, a ∈ db w -> uuid_of_string pk = Some (account_id a) ->
        clerk_id a = u ->
        fst (AccountViewset_retrieve request pk w)
          = inr {| status_code := 200;
                   rdata := One (to_representation a) |})
  /\ ((forall a, a ∈ db w -> uuid_of_string pk = Some (account_id a) ->
         clerk_id a <> u) ->
      fst (AccountViewset_retrieve request pk w) = inl Http404).
Proof.
  intros Hv Hpk. apply verified_inv in Hv.
  destruct Hv as (t & Ht & Hne & Hv).
  unfold AccountRetrieveView_retrieve, AccountViewset_retrieve,
    RetrieveModelMixin_retrieve, bind.
  rewrite (AccountRetrieveView_get_object_run request t u Ht Hne Hv).
  rewrite (AccountViewset_get_object_run request t u Ht Hne Hv).
  split; [|split].
  - intros a Ha Hid. rewrite Hid.
    rewrite (filter_pk_found _ a) by
      (try apply pk_unique_sorted; try apply elem_of_sorted; assumption).
    reflexivity.
  - intros a Ha Hid Hown. rewrite Hid.
    rewrite (filter_pk_found _ a).
    + reflexivity.
    + apply pk_unique_filter, pk_unique_sorted. assumption.
    + apply elem_of_owned. auto.
  - intros Hnone. destruct (uuid_of_string pk) as [i|]; [|reflexivity].
    rewrite filter_none; [reflexivity|].
    intros b Hb Hid. apply elem_of_owned in Hb. destruct Hb as [Hb Hown].
    apply (Hnone b Hb); [congruence | assumption].
Qed.

(** ** Validation and saving *)

Lemma writable_fields_eq : writable_fields = ["username"; "display_pic"].
Proof. reflexivity. Qed.

Lemma validate_fields_keys rows instance body names validated k :
  validate_fields rows instance body names = inr validated ->
  k ∉ names -> validated !! k = None.
Proof.
  revert validated. induction names as [|name rest IH]; simpl.
  - intros validated [= <-] _. apply lookup_empty.
  - intros validated Hv Hk. apply not_elem_of_cons in Hk.
    destruct Hk as [Hne Hk].
    destruct (validate_fields rows instance body rest) as [e|v0];
      [discriminate|].
    destruct (body !! name) as [v|].
    + destruct (validate_field rows instance name v) as [e|v'];
        [discriminate|].
      injection Hv as <-. rewrite lookup_insert_ne by congruence. auto.
    + injection Hv as <-. auto.
Qed.

Lemma validate_fields_ignores rows instance body names k c :
  k ∉ names ->
  validate_fields rows instance (<[k := c]> body) names
    = validate_fields rows instance body names.
Proof.
  induction names as [|name rest IH]; simpl; [reflexivity|].
  intros Hk. apply not_elem_of_cons in Hk. destruct Hk as [Hne Hk].
  rewrite IH by assumption. rewrite lookup_insert_ne by assumption.
  reflexivity.
Qed.

Lemma clerk_id_not_writable : "clerk_id" ∉ writable_fields.
Proof.
  rewrite writable_fields_eq. intros H.
  repeat (apply elem_of_cons in H; destruct H as [H|H]; [discriminate|]).
  inversion H.
Qed.

Lemma is_valid_run instance body w :
  is_valid instance body w
    = (validate_fields (db w) instance body writable_fields, w).
Proof.
  unfold is_valid, bind, get_db.
  destruct (validate_fields (db w) instance body writable_fields);
    reflexivity.
Qed.

Lemma serializer_update_run instance validated w :
  serializer_update instance validated w =
    if violates_unique (other_rows instance (db w))
         (set_attributes instance validated)
    then (inl IntegrityError, w)
    else (inr (set_attributes instance validated),
          {| db := write_row (set_attributes instance validated) (db w);
             trace := trace w |}).
Proof.
  unfold serializer_update, bind, get_db, other_rows, write_row. simpl.
  destruct (violates_unique _ _); reflexivity.
Qed.

Lemma serializer_create_run validated new_id now w :
  serializer_create validated new_id now w =
    if violates_unique (db w)
         (set_attributes (mkAccount new_id None None None now) validated)
    then (inl IntegrityError, w)
    else (inr (set_attributes (mkAccount new_id None None None now) validated),
          {| db := db w ++ [set_attributes
                              (mkAccount new_id None None None now) validated];
             trace := trace w |}).
Proof.
  unfold serializer_create, bind, get_db. simpl.
  destruct (violates_unique _ _); reflexivity.
Qed.

(** Writing a row back changes neither the keys nor, when the written row
    keeps its owner, the owners of the table. *)
Lemma write_row_owners (a a' : Account) (rows : list Account) :
  (forall b, b ∈ rows -> account_id b = account_id a -> b = a) ->
  account_id a' = account_id a -> clerk_id a' = clerk_id a ->
  map (fun b => (account_id b, clerk_id b)) (write_row a' rows)
    = map (fun b => (account_id b, clerk_id b)) rows.
Proof.
  intros Hinj Hid Hown. induction rows as [|b rows IH]; [reflexivity|].
  simpl. rewrite IH by (intros c Hc; apply Hinj; right; assumption).
  f_equal.
  destruct (decide (account_id b = account_id a')) as [Heq|]; [|reflexivity].
  assert (b = a) as -> by (apply Hinj; [left|congruence]).
  congruence.
Qed.

Lemma write_row_keys (a' : Account) (rows : list Account) :
  account_id <$> write_row a' rows = account_id <$> rows.
Proof.
  induction rows as [|b rows IH]; [reflexivity|].
  unfold write_row in *. simpl. f_equal; [|exact IH].
  destruct (decide (account_id b = account_id a')); congruence.
Qed.

Lemma write_row_pk_unique (a' : Account) (rows : list Account) :
  pk_unique rows -> pk_unique (write_row a' rows).
Proof. unfold pk_unique. rewrite write_row_keys. auto. Qed.

(** ** Creating and updating *)

(** No credential, no action: a request whose credential does not verify is
    refused by the update and never passes [perform_create]. *)
Lemma partial_update_unverified request pk w :
  (forall u,
     fst (verify_auth_token (META request !! "HTTP_AUTHORIZATION") w)
       <> inr u) ->
  fst (AccountViewset_partial_update request pk w) = inl PermissionDenied
  /\ db (snd (AccountViewset_partial_update request pk w)) = db w.
Proof.
  intros Hno. unfold AccountViewset_partial_update, try_except, bind.
  destruct (py_not (META request !! "HTTP_AUTHORIZATION")) eqn:Hn.
  - rewrite verify_auth_token_falsy by assumption. split; reflexivity.
  - apply py_not_false_inv in Hn. destruct Hn as (t & Ht & Hne).
    rewrite Ht in *. rewrite verify_auth_token_run in * by assumption.
    simpl in Hno. destruct (verdict t) as [e|u]; [split; reflexivity|].
    destruct (Hno u). reflexivity.
Qed.

Section VerifiedWrites.

(** A request whose credential, read from [META], verifies to [u]. *)
Variables (request : HttpRequest) (t : string) (u : option string).
Hypothesis Htoken : META request !! "HTTP_AUTHORIZATION" = Some t.
Hypothesis Hne : t <> "".
Hypothesis Hverdict : verdict t = inr u.

Lemma partial_update_run pk w :
  AccountViewset_partial_update request pk w =
    match uuid_of_string pk with
    | None => (inl PermissionDenied, logged (EvSessionsGet t) (logged (EvSessionsGet t) w))
    | Some i =>
        match filter (fun a => account_id a = i)
                (filter_clerk_id u (merge_sort created_le (db w))) with
        | [] => (inl PermissionDenied, logged (EvSessionsGet t) (logged (EvSessionsGet t) w))
        | a :: _ =>
            match validate_fields (db w) (Some a) (data request)
                    writable_fields with
            | inl _ =>
                (inl PermissionDenied, logged (EvSessionsGet t) (logged (EvSessionsGet t) (logged (EvSessionsGet t) w)))
            | inr v =>
                if violates_unique (other_rows a (db w)) (set_attributes a v)
                then (inl PermissionDenied,
                      logged (EvSessionsGet t) (logged (EvSessionsGet t) (logged (EvSessionsGet t) w)))
                else
                  (inr {| status_code := 200;
                          rdata :=
                            One (to_representation (set_attributes a v)) |},
                   {| db := write_row (set_attributes a v) (db w);
                      trace :=
                        trace (logged (EvSessionsGet t) (logged (EvSessionsGet t) (logged (EvSessionsGet t) w))) |})
            end
        end
    end.
Proof.
  unfold AccountViewset_partial_update, try_except, bind.
  rewrite Htoken, (verify_auth_token_ok t u w Hne Hverdict).
  rewrite (AccountViewset_get_object_run request t u Htoken Hne Hverdict).
  simpl db.
  destruct (uuid_of_string pk) as [i|] eqn:Hi; [|reflexivity].
  destruct (filter (fun a => account_id a = i) _) as [|a l] eqn:Hf;
    [reflexivity|].
  assert (Hown : clerk_id a = u).
  { assert (Ha : a ∈ a :: l) by left. rewrite <- Hf in Ha.
    apply list_elem_of_filter in Ha. destruct Ha as [_ Ha].
    apply elem_of_owned in Ha. tauto. }
  destruct (decide (clerk_id a <> u)) as [?|_]; [contradiction|].
  unfold UpdateModelMixin_update, bind.
  rewrite (AccountViewset_get_object_run request t u Htoken Hne Hverdict).
  simpl db. rewrite Hi, Hf. rewrite is_valid_run. simpl db.
  destruct (validate_fields (db w) (Some a) (data request) writable_fields)
    as [e|v]; [reflexivity|].
  rewrite serializer_update_run. simpl db.
  destruct (violates_unique _ _); reflexivity.
Qed.

Lemma create_run new_id now w :
  AccountViewset_create request new_id now w =
    match validate_fields (db w) None (data request) writable_fields with
    | inl e => (inl e, w)
    | inr v =>
        let a :=
          set_attributes (mkAccount new_id None None None now)
            (<["clerk_id" := u]> v) in
        if violates_unique (db w) a
        then (inl PermissionDenied, logged (EvSessionsGet t) w)
        else (inr {| status_code := 201;
                     rdata := One (to_representation a) |},
              {| db := db w ++ [a]; trace := trace (logged (EvSessionsGet t) w) |})
    end.
Proof.
  unfold AccountViewset_create, CreateModelMixin_create, bind.
  rewrite is_valid_run.
  destruct (validate_fields (db w) None (data request) writable_fields)
    as [e|v]; [reflexivity|].
  unfold AccountViewset_perform_create, try_except, bind.
  rewrite Htoken, (verify_auth_token_ok t u w Hne Hverdict).
  rewrite serializer_create_run. simpl db.
  destruct (violates_unique _ _); reflexivity.
Qed.

End VerifiedWrites.

(** The row the update finds for a key that an existing record has. *)
Lemma owned_lookup (u : option string) (a : Account) (rows : list Account) :
  pk_unique rows -> a ∈ rows ->
  filter (fun b => account_id b = account_id a)
    (filter_clerk_id u (merge_sort created_le rows))
  = if decide (clerk_id a = u) then [a] else [].
Proof.
  intros Hpk Ha. destruct (decide (clerk_id a = u)) as [Hown|Hown].
  - apply filter_pk_found.
    + apply pk_unique_filter, pk_unique_sorted. assumption.
    + apply elem_of_owned. auto.
  - apply filter_none. intros b Hb Hid. apply elem_of_owned in Hb.
    destruct Hb as [Hb Hbu].
    assert (b = a) by (apply (pk_unique_inj rows); assumption).
    congruence.
Qed.

(** C2 (amended). For a caller whose credential verifies to [u] and a
    record [a] of the table addressed by its key, the partial update
    succeeds exactly when [a] is owned by [u], the body passes the
    validation of the serializer and the written row respects the unique
    constraints of the table. When the owner differs the request is refused
    with [PermissionDenied]; every refusal leaves the table as it was. *)
Theorem partial_update_authorised request pk w u a :
  fst (verify_auth_token (META request !! "HTTP_AUTHORIZATION") w) = inr u ->
  pk_unique (db w) -> a ∈ db w ->
  uuid_of_string pk = Some (account_id a) ->
  ((exists resp,
      fst (AccountViewset_partial_update request pk w) = inr resp)
   <-> clerk_id a = u
       /\ exists v,
            validate_fields (db w) (Some a) (data request) writable_fields
              = inr v
            /\ violates_unique (other_rows a (db w)) (set_attributes a v)
               = false)
  /\ (clerk_id a <> u ->
        fst (AccountViewset_partial_update request pk w)
          = inl PermissionDenied
        /\ db (snd (AccountViewset_partial_update request pk w)) = db w)
  /\ (forall e,
        fst (AccountViewset_partial_update request pk w) = inl e ->
        db (snd (AccountViewset_partial_update request pk w)) = db w).
Proof.
  intros Hv Hpk Ha Hid. apply verified_inv in Hv.
  destruct Hv as (t & Ht & Hne & Hv).
  rewrite (partial_update_run request t u Ht Hne Hv), Hid.
  rewrite (owned_lookup u a (db w) Hpk Ha).
  destruct (decide (clerk_id a = u)) as [Hown|Hown].
  - destruct (validate_fields (db w) (Some a) (data request) writable_fields)
      as [e0|v] eqn:Hval.
    + split; [|split].
      * split; [intros [resp H]; discriminate|].
        intros (_ & v & Hv' & _). discriminate.
      * intros ?. contradiction.
      * intros e _. reflexivity.
    + destruct (violates_unique (other_rows a (db w)) (set_attributes a v))
        eqn:Hviol.
      * split; [|split].
        -- split; [intros [resp H]; discriminate|].
           intros (_ & v' & [= <-] & Hno). congruence.
        -- intros ?. contradiction.
        -- intros e _. reflexivity.
      * split; [|split].
        -- split; [|eauto]. intros _. split; [assumption|]. eauto.
        -- intros ?. contradiction.
        -- intros e H. discriminate.
  - split; [|split].
    + split; [intros [resp H]; discriminate|]. intros [? _]. contradiction.
    + intros _. split; reflexivity.
    + intros e _. reflexivity.
Qed.

(** C10. A partial update that succeeds leaves the owner of every row of
    the table, and so of the record it writes, as it was: the keys and the
    [clerk_id]s of the table are the same before and after. *)
Theorem partial_update_keeps_owner request pk w resp w' :
  pk_unique (db w) ->
  AccountViewset_partial_update request pk w = (inr resp, w') ->
  map (fun b => (account_id b, clerk_id b)) (db w')
    = map (fun b => (account_id b, clerk_id b)) (db w)
  /\ exists a a',
       a ∈ db w /\ uuid_of_string pk = Some (account_id a)
       /\ a' ∈ db w' /\ account_id a' = account_id a
       /\ clerk_id a' = clerk_id a
       /\ resp = {| status_code := 200;
                    rdata := One (to_representation a') |}.
Proof.
  intros Hpk Hrun.
  destruct (py_not (META request !! "HTTP_AUTHORIZATION")) eqn:Hn.
  { destruct (partial_update_unverified request pk w) as [H _].
    - intros u.
      rewrite verify_auth_token_falsy by assumption. discriminate.
    - rewrite Hrun in H. discriminate. }
  apply py_not_false_inv in Hn. destruct Hn as (t & Ht & Hne).
  destruct (verdict t) as [e|u] eqn:Hv.
  { destruct (partial_update_unverified request pk w) as [H _].
    - intros u. rewrite Ht, verify_auth_token_run, Hv by assumption.
      discriminate.
    - rewrite Hrun in H. discriminate. }
  rewrite (partial_update_run request t u Ht Hne Hv) in Hrun.
  destruct (uuid_of_string pk) as [i|] eqn:Hi; [|discriminate].
  destruct (filter (fun a => account_id a = i) _) as [|a l] eqn:Hf;
    [discriminate|].
  assert (Hin : a ∈ filter (fun a => account_id a = i)
                     (filter_clerk_id u (merge_sort created_le (db w))))
    by (rewrite Hf; left).
  apply list_elem_of_filter in Hin. destruct Hin as [Hai Hin].
  apply elem_of_owned in Hin. destruct Hin as [Ha Hown].
  destruct (validate_fields (db w) (Some a) (data request) writable_fields)
    as [e|v] eqn:Hval; [discriminate|].
  destruct (violates_unique _ _); [discriminate|].
  injection Hrun as <- <-. simpl db.
  assert (Hkeep : clerk_id (set_attributes a v) = clerk_id a).
  { simpl.
    rewrite (validate_fields_keys _ _ _ _ _ "clerk_id" Hval
               clerk_id_not_writable).
    reflexivity. }
  split.
  - apply (write_row_owners a); [|reflexivity|assumption].
    intros b Hb Hbid. apply (pk_unique_inj (db w)); assumption.
  - exists a, (set_attributes a v).
    split; [assumption|]. split; [congruence|].
    split; [|split; [reflexivity|split; [assumption|reflexivity]]].
    unfold write_row. apply list_elem_of_In, in_map_iff. exists a.
    split; [|apply list_elem_of_In; assumption].
    simpl. destruct (decide (account_id a = account_id a));
      [reflexivity|contradiction].
Qed.

(** The primary key constraint survives an update. *)
Lemma partial_update_pk_unique request pk w :
  pk_unique (db w) ->
  pk_unique (db (snd (AccountViewset_partial_update request pk w))).
Proof.
  intros Hpk.
  destruct (py_not (META request !! "HTTP_AUTHORIZATION")) eqn:Hn.
  - destruct (partial_update_unverified request pk w) as [_ H];
      [|rewrite H; assumption].
    intros u. rewrite verify_auth_token_falsy by assumption. discriminate.
  - apply py_not_false_inv in Hn. destruct Hn as (t & Ht & Hne).
    destruct (verdict t) as [e'|u] eqn:Hv.
    + destruct (partial_update_unverified request pk w) as [_ H];
        [|rewrite H; assumption].
      intros u. rewrite Ht, verify_auth_token_run, Hv by assumption.
      discriminate.
    + rewrite (partial_update_run request t u Ht Hne Hv).
      destruct (uuid_of_string pk); [|assumption].
      destruct (filter _ _); [assumption|].
      destruct (validate_fields _ _ _ _); [assumption|].
      destruct (violates_unique _ _); [assumption|].
      apply write_row_pk_unique. assumption.
Qed.

Lemma create_unverified request new_id now w :
  (forall u,
     fst (verify_auth_token (META request !! "HTTP_AUTHORIZATION") w)
       <> inr u) ->
  forall resp, fst (AccountViewset_create request new_id now w) <> inr resp.
Proof.
  intros Hno resp.
  unfold AccountViewset_create, CreateModelMixin_create, bind.
  rewrite is_valid_run.
  destruct (validate_fields (db w) None (data request) writable_fields)
    as [e|v]; [discriminate|].
  unfold AccountViewset_perform_create, try_except, bind.
  destruct (verify_auth_token (META request !! "HTTP_AUTHORIZATION") w)
    as [[e|u] w1] eqn:Hv; [discriminate|].
  destruct (Hno u). reflexivity.
Qed.

Lemma violates_unique_key (rows : list Account) (a : Account) :
  violates_unique rows a = false -> account_id a ∉ account_id <$> rows.
Proof.
  intros Hno Hin. apply list_elem_of_fmap in Hin.
  destruct Hin as (b & Hid & Hb).
  unfold violates_unique in Hno.
  apply not_true_iff_false in Hno. apply Hno.
  apply existsb_exists. exists b. split; [apply list_elem_of_In, Hb|].
  rewrite (bool_decide_eq_true_2 (account_id b = account_id a))
    by congruence.
  reflexivity.
Qed.

(** The primary key constraint survives a create. *)
Lemma create_pk_unique request new_id now w :
  pk_unique (db w) ->
  pk_unique (db (snd (AccountViewset_create request new_id now w))).
Proof.
  intros Hpk.
  unfold AccountViewset_create, CreateModelMixin_create, bind.
  rewrite is_valid_run.
  destruct (validate_fields (db w) None (data request) writable_fields)
    as [e|v]; [assumption|].
  unfold AccountViewset_perform_create, try_except, bind.
  destruct (verify_auth_token (META request !! "HTTP_AUTHORIZATION") w)
    as [[e|u] w1] eqn:Hv.
  - destruct (py_not (META request !! "HTTP_AUTHORIZATION")) eqn:Hn.
    + rewrite verify_auth_token_falsy in Hv by assumption.
      injection Hv as _ <-. assumption.
    + apply py_not_false_inv in Hn. destruct Hn as (t & Ht & Hne).
      rewrite Ht, verify_auth_token_run in Hv by assumption.
      injection Hv as _ <-. assumption.
  - apply (f_equal fst) in Hv as Hu. simpl in Hu.
    apply verified_inv in Hu. destruct Hu as (t & Ht & Hne & _).
    rewrite Ht, verify_auth_token_run in Hv by assumption.
    injection Hv as _ <-. rewrite serializer_create_run. simpl db.
    destruct (violates_unique _ _) eqn:Hviol; [assumption|].
    simpl. unfold pk_unique. rewrite fmap_app. simpl.
    apply NoDup_app. split; [assumption|]. split.
    + intros x Hx Hx'. apply list_elem_of_singleton in Hx'. subst x.
      apply (violates_unique_key _ _ Hviol). assumption.
    + apply NoDup_singleton.
Qed.

(** C3. When a create succeeds, the caller's credential verified to some
    identifier [u], the table has gained one record, and the [clerk_id] of
    that record is [u]; a [clerk_id] put in the body of the request changes
    nothing of the outcome. *)
Theorem create_stamps_verified_owner request new_id now w resp w' :
  AccountViewset_create request new_id now w = (inr resp, w') ->
  exists u a,
    fst (verify_auth_token (META request !! "HTTP_AUTHORIZATION") w) = inr u
    /\ db w' = db w ++ [a]
    /\ account_id a = new_id
    /\ clerk_id a = u
    /\ resp = {| status_code := 201; rdata := One (to_representation a) |}
    /\ forall c,
         AccountViewset_create
           (with_data request (<["clerk_id" := c]> (data request)))
           new_id now w
         = (inr resp, w').
Proof.
  intros Hrun.
  destruct (py_not (META request !! "HTTP_AUTHORIZATION")) eqn:Hn.
  { exfalso. apply (create_unverified request new_id now w) with (resp := resp).
    - intros u.
      rewrite verify_auth_token_falsy by assumption. discriminate.
    - rewrite Hrun. reflexivity. }
  apply py_not_false_inv in Hn. destruct Hn as (t & Ht & Hne).
  destruct (verdict t) as [e|u] eqn:Hv.
  { exfalso. apply (create_unverified request new_id now w) with (resp := resp).
    - intros u. rewrite Ht, verify_auth_token_run, Hv by assumption.
      discriminate.
    - rewrite Hrun. reflexivity. }
  pose proof (create_run request t u Ht Hne Hv new_id now w) as Hcr.
  rewrite Hrun in Hcr.
  destruct (validate_fields (db w) None (data request) writable_fields)
    as [e|v] eqn:Hval; [discriminate|].
  cbv zeta in Hcr.
  destruct (violates_unique _ _) eqn:Hviol; [discriminate|].
  injection Hcr as -> ->.
  exists u, (set_attributes (mkAccount new_id None None None now)
               (<["clerk_id" := u]> v)).
  split; [rewrite Ht, verify_auth_token_run, Hv by assumption; reflexivity|].
  split; [reflexivity|]. split; [reflexivity|].
  split; [simpl; rewrite lookup_insert_eq; reflexivity|].
  split; [reflexivity|].
  intros c.
  rewrite (create_run (with_data request (<["clerk_id" := c]> (data request)))
             t u Ht Hne Hv).
  simpl data.
  rewrite (validate_fields_ignores _ _ _ _ _ _ clerk_id_not_writable), Hval.
  cbv zeta. rewrite Hviol. reflexivity.
Qed.

(** * Further properties *)

(** ** The routes *)

Lemma append_cons (c : ascii) (s r : string) :
  String c s +:+ r = String c (s +:+ r).
Proof. reflexivity. Qed.

Lemma append_nil_l (r : string) : "" +:+ r = r.
Proof. reflexivity. Qed.

Lemma append_nil_r (s : string) : s +:+ "" = s.
Proof.
  induction s as [|c s IH]; [reflexivity|]. rewrite append_cons, IH.
  reflexivity.
Qed.

Lemma append_assoc (s1 s2 s3 : string) :
  (s1 +:+ s2) +:+ s3 = s1 +:+ (s2 +:+ s3).
Proof.
  induction s1 as [|c s1 IH]; [reflexivity|].
  rewrite !append_cons, IH. reflexivity.
Qed.

Lemma substring_all (s : string) :
  String.substring 0 (String.length s) s = s.
Proof. induction s as [|c s IH]; simpl; [reflexivity|]. f_equal. exact IH. Qed.

(** A literal consumes itself and nothing else. *)
Lemma prefix_inv (text s : string) :
  String.prefix text s = true ->
  exists r,
    s = text +:+ r
    /\ String.substring (String.length text)
         (String.length s - String.length text) s = r.
Proof.
  revert s. induction text as [|c text IH]; intros s H.
  - exists s. split; [reflexivity|]. simpl. rewrite Nat.sub_0_r.
    apply substring_all.
  - destruct s as [|c' s]; [discriminate|]. simpl in H.
    destruct (Ascii.ascii_dec c c') as [->|]; [|discriminate].
    destruct (IH s H) as (r & -> & Hr). exists r. split; [reflexivity|].
    simpl. exact Hr.
Qed.

Lemma prefix_append (text r : string) : String.prefix text (text +:+ r) = true.
Proof.
  induction text as [|c text IH]; [destruct r; reflexivity|].
  rewrite append_cons. simpl.
  destruct (Ascii.ascii_dec c c); [assumption|contradiction].
Qed.

Lemma match_route_lit text rest s :
  match_route (Lit text :: rest) (text +:+ s) = match_route rest s.
Proof.
  cbn [match_route]. rewrite prefix_append.
  destruct (prefix_inv text (text +:+ s) (prefix_append text s))
    as (r & Heq & Hr).
  rewrite Hr. apply String.app_inj in Heq. subst r. reflexivity.
Qed.

Lemma match_route_lit_inv text rest s kw :
  match_route (Lit text :: rest) s = Some kw ->
  exists r, s = text +:+ r /\ match_route rest r = Some kw.
Proof.
  cbn [match_route]. destruct (String.prefix text s) eqn:Hp; [|discriminate].
  destruct (prefix_inv text s Hp) as (r & Heq & Hr). rewrite Hr. eauto.
Qed.

Lemma match_route_slash s kw :
  match_route [Lit "/"] s = Some kw <-> s = "/" /\ kw = [].
Proof.
  split.
  - intros H. apply match_route_lit_inv in H. destruct H as (r & -> & H).
    simpl in H. destruct (decide (r = "")) as [->|]; [|discriminate].
    injection H as <-. auto.
  - intros [-> ->]. reflexivity.
Qed.

Lemma is_segment_cons c pk :
  is_segment (String c pk) <-> c <> "/"%char /\ lacks "/" pk = true.
Proof.
  unfold is_segment. simpl. split.
  - intros [_ H]. apply andb_true_iff in H. destruct H as [Hc Hl].
    split; [|assumption]. intros ->.
    rewrite bool_decide_eq_true_2 in Hc by reflexivity. discriminate.
  - intros [Hc Hl]. split; [discriminate|].
    rewrite bool_decide_eq_false_2 by assumption. exact Hl.
Qed.

(** The capture followed by the closing ['/'] takes a whole segment. *)
Lemma match_param_slash_intro name pk taken :
  is_segment pk ->
  match_param (match_route [Lit "/"]) name taken (pk +:+ "/")
    = Some [(name, taken +:+ pk)].
Proof.
  revert taken. induction pk as [|c pk IH]; intros taken Hseg.
  - destruct Hseg as [Hne _]. contradiction.
  - apply is_segment_cons in Hseg. destruct Hseg as [Hc Hl].
    change (String c pk +:+ "/") with (String c (pk +:+ "/")).
    cbn [match_param]. destruct (decide (c = "/"%char)); [contradiction|].
    destruct pk as [|c' pk].
    + reflexivity.
    + rewrite IH.
      * rewrite append_assoc. reflexivity.
      * split; [discriminate|assumption].
Qed.

(** It takes nothing else. *)
Lemma match_param_slash_elim name s taken kw :
  match_param (match_route [Lit "/"]) name taken s = Some kw ->
  exists pk, is_segment pk /\ s = pk +:+ "/"
             /\ kw = [(name, taken +:+ pk)].
Proof.
  revert taken kw. induction s as [|c s IH]; intros taken kw.
  - discriminate.
  - cbn [match_param]. destruct (decide (c = "/"%char)) as [->|Hc];
      [discriminate|].
    destruct (match_param (match_route [Lit "/"]) name
                (taken +:+ String c "") s) as [kw'|] eqn:Hrec.
    + intros [= <-]. destruct (IH _ _ Hrec) as (pk & [Hne Hl] & -> & ->).
      exists (String c pk). split; [apply is_segment_cons; auto|].
      split; [reflexivity|]. rewrite append_assoc. reflexivity.
    + destruct (match_route [Lit "/"] s) as [kw0|] eqn:Hk; [|discriminate].
      apply match_route_slash in Hk. destruct Hk as [-> ->].
      intros [= <-]. exists (String c "").
      split; [apply is_segment_cons; auto|]. split; reflexivity.
Qed.

(** A segment followed by ['/'] does not start with [retrieve/]. *)
Lemma segment_not_retrieve pk rest :
  lacks "/" pk = true -> pk +:+ "/" <> "retrieve/" +:+ rest +:+ "/".
Proof.
  intros Hl H. rewrite !append_cons, append_nil_l in H.
  do 8 (destruct pk as [|? pk];
        [rewrite append_nil_l in H; discriminate|];
        rewrite append_cons in H; injection H as -> H; simpl in Hl).
  destruct pk as [|c pk].
  - rewrite append_nil_l in H. injection H as H.
    destruct rest; [rewrite append_nil_l in H|rewrite append_cons in H];
      discriminate.
  - rewrite append_cons in H. injection H as -> H. simpl in Hl.
    discriminate.
Qed.

Lemma match_route_param name rest s :
  match_route (StrParam name :: rest) s
    = match_param (match_route rest) name "" s.
Proof. reflexivity. Qed.

Lemma match_detail_route s kw :
  match_route [StrParam "pk"; Lit "/"] s = Some kw <->
  exists pk, is_segment pk /\ s = pk +:+ "/" /\ kw = [("pk", pk)].
Proof.
  rewrite match_route_param. split.
  - intros H. apply match_param_slash_elim in H.
    destruct H as (pk & Hseg & -> & ->). exists pk. auto.
  - intros (pk & Hseg & -> & ->).
    rewrite (match_param_slash_intro "pk" pk "" Hseg). reflexivity.
Qed.

Lemma match_list_route s kw :
  match_route [Lit "list/"] s = Some kw <-> s = "list/" /\ kw = [].
Proof.
  split.
  - intros H. apply match_route_lit_inv in H. destruct H as (r & -> & H).
    simpl in H. destruct (decide (r = "")) as [->|]; [|discriminate].
    injection H as <-. auto.
  - intros [-> ->]. reflexivity.
Qed.

Lemma match_retrieve_route s kw :
  match_route [Lit "retrieve/"; StrParam "pk"; Lit "/"] s = Some kw <->
  exists pk,
    is_segment pk /\ s = "retrieve/" +:+ pk +:+ "/" /\ kw = [("pk", pk)].
Proof.
  split.
  - intros H. apply match_route_lit_inv in H. destruct H as (r & -> & H).
    apply match_detail_route in H. destruct H as (pk & Hseg & -> & ->).
    exists pk. auto.
  - intros (pk & Hseg & -> & ->). rewrite match_route_lit.
    apply match_detail_route. exists pk. auto.
Qed.

(** X1. The resolver of [urlpatterns] knows three kinds of path and no
    other: the empty path goes to the collection route of [AccountViewset];
    one segment followed by ['/'] goes to its detail route, with the segment
    as [pk]; [retrieve/], one segment and ['/'] go to [AccountRetrieveView],
    with the segment as [pk]. *)
Theorem resolve_table (s : string) (r : view * kwargs) :
  resolve s = Some r <->
    (s = "" /\ r = (AccountViewset_collection, []))
    \/ (exists pk, is_segment pk /\ s = pk +:+ "/"
                   /\ r = (AccountViewset_detail, [("pk", pk)]))
    \/ (exists pk, is_segment pk /\ s = "retrieve/" +:+ pk +:+ "/"
                   /\ r = (AccountRetrieveView, [("pk", pk)])).
Proof.
  unfold resolve, urlpatterns. cbn [resolve_in].
  destruct (decide (s = "")) as [->|Hs].
  { split.
    - intros [= <-]. left. auto.
    - intros [[_ ->]|[(pk & _ & H & _)|(pk & _ & H & _)]]; [reflexivity| |].
      + destruct pk; discriminate.
      + discriminate. }
  assert (H1 : match_route [] s = None).
  { simpl. destruct (decide (s = "")); [contradiction|reflexivity]. }
  rewrite H1.
  destruct (match_route [StrParam "pk"; Lit "/"] s) as [kw|] eqn:H2.
  { pose proof H2 as H2'. apply match_detail_route in H2'.
    destruct H2' as (pk & Hseg & -> & ->). split.
    - intros [= <-]. right. left. exists pk. auto.
    - intros [[? _]|[(pk' & Hseg' & Heq & ->)|(pk' & _ & Heq & _)]].
      + contradiction.
      + assert (H3 : match_route [StrParam "pk"; Lit "/"] (pk +:+ "/")
                     = Some [("pk", pk')])
          by (apply match_detail_route; eauto).
        rewrite H2 in H3. injection H3 as <-. reflexivity.
      + destruct (segment_not_retrieve pk pk' (proj2 Hseg) Heq). }
  assert (N2 : forall pk, is_segment pk -> s <> pk +:+ "/").
  { intros pk Hseg ->.
    assert (H3 : match_route [StrParam "pk"; Lit "/"] (pk +:+ "/")
                 = Some [("pk", pk)])
      by (apply match_detail_route; eauto).
    rewrite H2 in H3. discriminate. }
  destruct (match_route [Lit "list/"] s) as [kw|] eqn:H3.
  { apply match_list_route in H3. destruct H3 as [-> _].
    destruct (N2 "list"); [split; [discriminate|reflexivity]|reflexivity]. }
  destruct (match_route [Lit "retrieve/"; StrParam "pk"; Lit "/"] s)
    as [kw|] eqn:H4.
  { pose proof H4 as H4'. apply match_retrieve_route in H4'.
    destruct H4' as (pk & Hseg & -> & ->). split.
    - intros [= <-]. right. right. exists pk. auto.
    - intros [[? _]|[(pk' & Hseg' & Heq & _)|(pk' & Hseg' & Heq & ->)]].
      + contradiction.
      + destruct (N2 pk' Hseg' Heq).
      + assert (H5 : match_route [Lit "retrieve/"; StrParam "pk"; Lit "/"]
                       ("retrieve/" +:+ pk +:+ "/") = Some [("pk", pk')])
          by (apply match_retrieve_route; eauto).
        rewrite H4 in H5. injection H5 as <-. reflexivity. }
  split; [discriminate|].
  intros [[? _]|[(pk' & Hseg' & Heq & _)|(pk' & Hseg' & Heq & _)]].
  - contradiction.
  - destruct (N2 pk' Hseg' Heq).
  - assert (H5 : match_route [Lit "retrieve/"; StrParam "pk"; Lit "/"] s
                 = Some [("pk", pk')])
      by (apply match_retrieve_route; eauto).
    rewrite H4 in H5. discriminate.
Qed.

Lemma resolve_table_views s v kw :
  resolve s = Some (v, kw) ->
  v = AccountViewset_collection \/ v = AccountViewset_detail
  \/ v = AccountRetrieveView.
Proof.
  unfold resolve, urlpatterns. cbn [resolve_in].
  destruct (match_route [] s); [intros [= <- _]; auto|].
  destruct (match_route [StrParam "pk"; Lit "/"] s) eqn:H2;
    [intros [= <- _]; auto|].
  destruct (match_route [Lit "list/"] s) eqn:H3.
  { apply match_list_route in H3. destruct H3 as [-> _].
    vm_compute in H2. discriminate. }
  destruct (match_route [Lit "retrieve/"; StrParam "pk"; Lit "/"] s);
    [intros [= <- _]; auto|discriminate].
Qed.

(** X2. No path resolves to [AccountsListView]: its route [list/] is also
    one segment and ['/'], and the detail route of [AccountViewset] stands
    before it. [GET list/] is the retrieve action of [AccountViewset] for
    the key [list], which answers 404 to a verified caller when [list] is
    not the text of a UUID. *)
Theorem AccountsListView_is_shadowed request new_id now w u :
  uuid_of_string "list" = None ->
  fst (verify_auth_token (META request !! "HTTP_AUTHORIZATION") w) = inr u ->
  (forall s v kw, resolve s = Some (v, kw) -> v <> AccountsListView)
  /\ resolve "list/" = Some (AccountViewset_detail, [("pk", "list")])
  /\ dispatch AccountViewset_detail [("pk", "list")] GET
     = Some (ActViewsetRetrieve "list")
  /\ fst (run_action (ActViewsetRetrieve "list") request new_id now w)
     = inl Http404.
Proof.
  intros Hlist Hv. split; [|split; [reflexivity|split; [reflexivity|]]].
  - intros s v kw H. apply resolve_table_views in H.
    destruct H as [->|[->| ->]]; discriminate.
  - apply verified_inv in Hv. destruct Hv as (t & Ht & Hne & Hv).
    simpl. unfold AccountViewset_retrieve, RetrieveModelMixin_retrieve, bind.
    rewrite (AccountViewset_get_object_run request t u Ht Hne Hv).
    rewrite Hlist. reflexivity.
Qed.

(** ** The text of an account *)

Lemma length_append (a b : string) :
  String.length (a +:+ b) = String.length a + String.length b.
Proof.
  induction a as [|c a IH]; [reflexivity|].
  rewrite append_cons. simpl. rewrite IH. reflexivity.
Qed.

Lemma lacks_append (c : ascii) (a b : string) :
  lacks c (a +:+ b) = lacks c a && lacks c b.
Proof.
  induction a as [|c' a IH]; [reflexivity|].
  rewrite append_cons. simpl. rewrite IH. apply andb_assoc.
Qed.

Lemma lacks_substring (c : ascii) (s : string) (n m : nat) :
  lacks c s = true -> lacks c (String.substring n m s) = true.
Proof.
  revert n m. induction s as [|c' s IH]; intros n m H.
  - destruct n, m; reflexivity.
  - simpl in H. apply andb_true_iff in H. destruct H as [Hc Hs].
    destruct n as [|n]; simpl.
    + destruct m as [|m]; [reflexivity|]. simpl. rewrite Hc. simpl.
      apply IH. assumption.
    + apply IH. assumption.
Qed.

Lemma length_substring (s : string) (n m : nat) :
  n + m <= String.length s -> String.length (String.substring n m s) = m.
Proof.
  revert n m. induction s as [|c s IH]; intros n m H; simpl in H.
  - destruct n, m; simpl in *; try reflexivity; lia.
  - destruct n as [|n]; simpl.
    + destruct m as [|m]; [reflexivity|]. simpl. rewrite (IH 0 m); [auto|].
      simpl. lia.
    + apply IH. lia.
Qed.

Lemma hex_digit_not_dash (n : N) : hex_digit n <> "-"%char.
Proof.
  unfold hex_digit. destruct n as [|p]; [discriminate|].
  repeat (destruct p as [p|p|]; try discriminate).
Qed.

Lemma length_hex_of (digits : nat) (n : N) :
  String.length (hex_of digits n) = digits.
Proof.
  revert n. induction digits as [|k IH]; intros n; [reflexivity|].
  simpl. rewrite length_append, IH. simpl. lia.
Qed.

Lemma lacks_hex_of (digits : nat) (n : N) :
  lacks "-" (hex_of digits n) = true.
Proof.
  revert n. induction digits as [|k IH]; intros n; [reflexivity|].
  simpl. rewrite lacks_append, IH. simpl.
  rewrite bool_decide_eq_false_2 by apply hex_digit_not_dash. reflexivity.
Qed.

Lemma py_split_head (sep : ascii) (a rest : string) :
  lacks sep a = true ->
  py_split sep (a +:+ String sep rest) !! 0%nat = Some a.
Proof.
  induction a as [|c a IH]; intros H.
  - rewrite append_nil_l. simpl.
    destruct (decide (sep = sep)); [reflexivity|contradiction].
  - simpl in H. apply andb_true_iff in H. destruct H as [Hc Ha].
    apply negb_true_iff, bool_decide_eq_false in Hc.
    rewrite append_cons. simpl.
    destruct (decide (c = sep)); [contradiction|].
    specialize (IH Ha).
    destruct (py_split sep (a +:+ String sep rest)) as [|piece pieces];
      [discriminate|].
    simpl in IH. injection IH as ->. reflexivity.
Qed.

(** X3. The text of an account is never empty and the index [0] never
    fails: it is the username when there is one that is not empty, and
    otherwise the first eight hexadecimal digits of the key. *)
Theorem Account__str__text (self : Account) :
  exists s,
    Account__str__ self = Some s
    /\ s <> ""
    /\ (py_not (username self) = false -> username self = Some s)
    /\ (py_not (username self) = true ->
          s = String.substring 0 8 (hex_of 32 (account_id self))
          /\ String.length s = 8
          /\ lacks "-" s = true).
Proof.
  unfold Account__str__. destruct (py_not (username self)) eqn:Hn.
  - exists (String.substring 0 8 (hex_of 32 (account_id self))).
    assert (Hlen : String.length
                     (String.substring 0 8 (hex_of 32 (account_id self)))
                   = 8)
      by (apply length_substring; rewrite length_hex_of; lia).
    assert (Hl : lacks "-"
                   (String.substring 0 8 (hex_of 32 (account_id self)))
                 = true)
      by (apply lacks_substring, lacks_hex_of).
    split; [|split; [|split]].
    + unfold uuid_str. cbv zeta.
      rewrite (append_cons "-" ""), append_nil_l.
      apply py_split_head. exact Hl.
    + intros H. rewrite H in Hlen. discriminate.
    + discriminate.
    + auto.
  - apply py_not_false_inv in Hn. destruct Hn as (t & Ht & Hne).
    exists t. rewrite Ht. split; [reflexivity|]. split; [assumption|].
    split; [reflexivity|discriminate].
Qed.

(** ** The validation of a new message *)

(** X4. [validate] returns the data it is given, unchanged, or raises. It
    raises exactly when the chat that [chat_type] names is missing; the
    other chat is never looked at, so a message of type [user] passes with
    or without a [group_chat]. *)
Theorem MessageCreateSerializer_validate_outcomes
    (data : gmap string message_value) :
  (forall data', MessageCreateSerializer_validate data = inr data' ->
                 data' = data)
  /\ (MessageCreateSerializer_validate data = inl user_chat_is_required <->
        data !! "chat_type" = Some (MText "user")
        /\ message_not (data !! "user_chat") = true)
  /\ (MessageCreateSerializer_validate data = inl group_chat_is_required <->
        data !! "chat_type" = Some (MText "group")
        /\ message_not (data !! "group_chat") = true)
  /\ (forall g,
        data !! "chat_type" = Some (MText "user") ->
        (MessageCreateSerializer_validate (<["group_chat" := g]> data)
           = inr (<["group_chat" := g]> data)
         <-> MessageCreateSerializer_validate data = inr data)).
Proof.
  unfold MessageCreateSerializer_validate. cbv zeta.
  split; [|split; [|split]].
  - intros data'.
    destruct (bool_decide _ && message_not (data !! "user_chat"));
      [discriminate|].
    destruct (bool_decide _ && message_not (data !! "group_chat"));
      [discriminate|].
    intros [= <-]. reflexivity.
  - destruct (bool_decide (data !! "chat_type" = Some (MText "user")))
      eqn:Hu; simpl.
    + apply bool_decide_eq_true in Hu.
      destruct (message_not (data !! "user_chat")); simpl.
      * split; auto.
      * rewrite Hu. simpl. split; [discriminate|]. intros [_ ?].
        discriminate.
    + apply bool_decide_eq_false in Hu.
      destruct (bool_decide _ && message_not (data !! "group_chat")).
      * split; [discriminate|]. intros [? _]. contradiction.
      * split; [discriminate|]. intros [? _]. contradiction.
  - destruct (bool_decide (data !! "chat_type" = Some (MText "user")))
      eqn:Hu; simpl.
    + apply bool_decide_eq_true in Hu. rewrite Hu.
      destruct (message_not (data !! "user_chat")); simpl.
      * split; [discriminate|]. intros [? _]. discriminate.
      * split; [discriminate|]. intros [? _]. discriminate.
    + destruct (bool_decide (data !! "chat_type" = Some (MText "group")))
        eqn:Hg; simpl.
      * apply bool_decide_eq_true in Hg.
        destruct (message_not (data !! "group_chat")).
        -- split; auto.
        -- split; [discriminate|]. intros [_ ?]. discriminate.
      * apply bool_decide_eq_false in Hg.
        split; [discriminate|]. intros [? _]. contradiction.
  - intros g Hu.
    rewrite !lookup_insert_ne by discriminate. rewrite Hu.
    rewrite bool_decide_eq_true_2 by reflexivity. simpl.
    destruct (message_not (data !! "user_chat")); simpl.
    + split; discriminate.
    + split; reflexivity.
Qed.

(** ** The views and the credential *)

Lemma verify_auth_token_db oauthtoken w :
  db (snd (verify_auth_token oauthtoken w)) = db w.
Proof.
  destruct (py_not oauthtoken) eqn:Hn.
  - rewrite verify_auth_token_falsy by assumption. reflexivity.
  - apply py_not_false_inv in Hn. destruct Hn as (t & -> & Hne).
    rewrite verify_auth_token_run by assumption. reflexivity.
Qed.

Lemma unverified_inv oauthtoken w :
  (forall u, fst (verify_auth_token oauthtoken w) <> inr u) ->
  exists e w', verify_auth_token oauthtoken w = (inl e, w') /\ db w' = db w.
Proof.
  intros Hno. pose proof (verify_auth_token_db oauthtoken w) as Hdb.
  destruct (verify_auth_token oauthtoken w) as [[e|u] w'].
  - eauto.
  - destruct (Hno u). reflexivity.
Qed.

Section Unverified.

(** A request whose credential does not verify. *)
Variables (request : HttpRequest) (w : World).
Hypothesis Hno :
  forall u,
    fst (verify_auth_token (META request !! "HTTP_AUTHORIZATION") w)
      <> inr u.

Lemma get_queryset_refuses : refuses (AccountViewset_get_queryset request) w.
Proof.
  destruct (unverified_inv _ _ Hno) as (e & w' & Hv & Hdb).
  unfold refuses, AccountViewset_get_queryset, try_except, bind.
  rewrite Hv. split; [reflexivity|exact Hdb].
Qed.

Lemma get_object_refuses pk : refuses (AccountViewset_get_object request pk) w.
Proof.
  destruct get_queryset_refuses as [Hq Hdb]. unfold refuses in *.
  unfold AccountViewset_get_object, GenericAPIView_get_object, bind.
  destruct (AccountViewset_get_queryset request w) as [[e|qs] w'];
    [|discriminate].
  simpl in *. injection Hq as ->. auto.
Qed.

Lemma list_refuses : refuses (AccountViewset_list request) w.
Proof.
  destruct get_queryset_refuses as [Hq Hdb]. unfold refuses in *.
  unfold AccountViewset_list, ListModelMixin_list, bind.
  destruct (AccountViewset_get_queryset request w) as [[e|qs] w'];
    [|discriminate].
  simpl in *. injection Hq as ->. auto.
Qed.

Lemma retrieve_refuses pk : refuses (AccountViewset_retrieve request pk) w.
Proof.
  destruct (get_object_refuses pk) as [Hq Hdb]. unfold refuses in *.
  unfold AccountViewset_retrieve, RetrieveModelMixin_retrieve, bind.
  destruct (AccountViewset_get_object request pk w) as [[e|a] w'];
    [|discriminate].
  simpl in *. injection Hq as ->. auto.
Qed.

Lemma update_refuses pk : refuses (AccountViewset_update request pk) w.
Proof.
  destruct (get_object_refuses pk) as [Hq Hdb]. unfold refuses in *.
  unfold AccountViewset_update, UpdateModelMixin_update, bind.
  destruct (AccountViewset_get_object request pk w) as [[e|a] w'];
    [|discriminate].
  simpl in *. injection Hq as ->. auto.
Qed.

Lemma list_view_refuses : refuses (AccountsListView_list request) w.
Proof.
  destruct (unverified_inv _ _ Hno) as (e & w' & Hv & Hdb).
  unfold refuses, AccountsListView_list, try_except, bind.
  rewrite Hv. split; [reflexivity|exact Hdb].
Qed.

Lemma retrieve_view_refuses pk :
  refuses (AccountRetrieveView_retrieve request pk) w.
Proof.
  destruct (unverified_inv _ _ Hno) as (e & w' & Hv & Hdb).
  unfold refuses, AccountRetrieveView_retrieve, RetrieveModelMixin_retrieve,
    AccountRetrieveView_get_object, try_except, bind.
  rewrite Hv. split; [reflexivity|exact Hdb].
Qed.

End Unverified.

Lemma create_unverified_db request new_id now w :
  (forall u,
     fst (verify_auth_token (META request !! "HTTP_AUTHORIZATION") w)
       <> inr u) ->
  db (snd (AccountViewset_create request new_id now w)) = db w.
Proof.
  intros Hno. unfold AccountViewset_create, CreateModelMixin_create, bind.
  rewrite is_valid_run.
  destruct (validate_fields (db w) None (data request) writable_fields)
    as [e|v]; [reflexivity|].
  unfold AccountViewset_perform_create, try_except, bind.
  destruct (unverified_inv _ _ Hno) as (e' & w' & Hv & Hdb).
  rewrite Hv. exact Hdb.
Qed.

(** X5. No account action answers a caller whose credential does not
    verify. The list, retrieve, update and partial update actions of
    [AccountViewset], and the two other views, raise [PermissionDenied]; the
    create action never returns a response; and the table is as it was. *)
Theorem views_refuse_unverified request pk new_id now w :
  (forall u,
     fst (verify_auth_token (META request !! "HTTP_AUTHORIZATION") w)
       <> inr u) ->
  refuses (AccountViewset_list request) w
  /\ refuses (AccountViewset_retrieve request pk) w
  /\ refuses (AccountViewset_update request pk) w
  /\ refuses (AccountViewset_partial_update request pk) w
  /\ refuses (AccountsListView_list request) w
  /\ refuses (AccountRetrieveView_retrieve request pk) w
  /\ (forall resp,
        fst (AccountViewset_create request new_id now w) <> inr resp)
  /\ db (snd (AccountViewset_create request new_id now w)) = db w.
Proof.
  intros Hno.
  split; [apply list_refuses; assumption|].
  split; [apply retrieve_refuses; assumption|].
  split; [apply update_refuses; assumption|].
  split; [apply partial_update_unverified; assumption|].
  split; [apply list_view_refuses; assumption|].
  split; [apply retrieve_view_refuses; assumption|].
  split; [apply create_unverified; assumption|].
  apply create_unverified_db. assumption.
Qed.

Lemma CharField_run_validation_error max_length validators v e :
  CharField_run_validation max_length validators v = inl e ->
  e = ValidationError.
Proof.
  unfold CharField_run_validation. destruct v as [s|]; [|discriminate].
  repeat match goal with
         | |- context [if ?c then _ else _] => destruct c
         end; congruence.
Qed.

Lemma validate_fields_error rows instance body names e :
  validate_fields rows instance body names = inl e -> e = ValidationError.
Proof.
  induction names as [|name rest IH]; simpl; [discriminate|].
  destruct (validate_fields rows instance body rest) as [e0|v0].
  - intros [= <-]. apply IH. reflexivity.
  - destruct (body !! name) as [v|]; [|discriminate].
    unfold validate_field.
    destruct (decide (name = "username"));
      destruct (CharField_run_validation _ _ v) as [e1|v1] eqn:Hc;
      try discriminate; intros [= <-];
      eapply CharField_run_validation_error, Hc.
Qed.

(** X6. The create action validates the body before it looks at the
    credential: a body that does not validate raises [ValidationError], a
    400, whoever the caller is, and the world is untouched; no call to the
    provider is made. *)
Theorem create_validates_first request new_id now w e :
  validate_fields (db w) None (data request) writable_fields = inl e ->
  AccountViewset_create request new_id now w = (inl ValidationError, w)
  /\ status_of_exn ValidationError = 400
  /\ emitted (AccountViewset_create request new_id now) w = [].
Proof.
  intros Hval.
  assert (Hrun : AccountViewset_create request new_id now w
                 = (inl ValidationError, w)).
  { unfold AccountViewset_create, CreateModelMixin_create, bind.
    rewrite is_valid_run, Hval.
    rewrite (validate_fields_error _ _ _ _ _ Hval). reflexivity. }
  split; [exact Hrun|]. split; [reflexivity|].
  apply emitted_nil. rewrite Hrun. reflexivity.
Qed.

(** ** The update action *)

Section VerifiedUpdate.

Variables (request : HttpRequest) (t : string) (u : option string).
Hypothesis Htoken : META request !! "HTTP_AUTHORIZATION" = Some t.
Hypothesis Hne : t <> "".
Hypothesis Hverdict : verdict t = inr u.

Lemma update_run pk w :
  AccountViewset_update request pk w =
    match uuid_of_string pk with
    | None => (inl Http404, logged (EvSessionsGet t) w)
    | Some i =>
        match filter (fun a => account_id a = i)
                (filter_clerk_id u (merge_sort created_le (db w))) with
        | [] => (inl Http404, logged (EvSessionsGet t) w)
        | a :: _ =>
            match validate_fields (db w) (Some a) (data request)
                    writable_fields with
            | inl e => (inl e, logged (EvSessionsGet t) w)
            | inr v =>
                if violates_unique (other_rows a (db w)) (set_attributes a v)
                then (inl IntegrityError, logged (EvSessionsGet t) w)
                else
                  (inr {| status_code := 200;
                          rdata :=
                            One (to_representation (set_attributes a v)) |},
                   {| db := write_row (set_attributes a v) (db w);
                      trace := trace (logged (EvSessionsGet t) w) |})
            end
        end
    end.
Proof.
  unfold AccountViewset_update, UpdateModelMixin_update, bind.
  rewrite (AccountViewset_get_object_run request t u Htoken Hne Hverdict).
  destruct (uuid_of_string pk) as [i|]; [|reflexivity].
  destruct (filter (fun a => account_id a = i) _) as [|a l]; [reflexivity|].
  rewrite is_valid_run. simpl db.
  destruct (validate_fields (db w) (Some a) (data request) writable_fields)
    as [e|v]; [reflexivity|].
  rewrite serializer_update_run. simpl db.
  destruct (violates_unique _ _); reflexivity.
Qed.

End VerifiedUpdate.

(** X7. [PUT] follows the same ownership rule as [PATCH] without the check
    of the view: for a verified caller and an existing record, it succeeds
    exactly when [PATCH] does, with the same response and the same table;
    on a record of another owner it answers 404, where [PATCH] answers
    [PermissionDenied], and writes nothing. *)
Theorem update_agrees_with_partial_update request pk w u a :
  fst (verify_auth_token (META request !! "HTTP_AUTHORIZATION") w) = inr u ->
  pk_unique (db w) -> a ∈ db w ->
  uuid_of_string pk = Some (account_id a) ->
  (forall resp,
     fst (AccountViewset_update request pk w) = inr resp
     <-> fst (AccountViewset_partial_update request pk w) = inr resp)
  /\ db (snd (AccountViewset_update request pk w))
     = db (snd (AccountViewset_partial_update request pk w))
  /\ (clerk_id a <> u ->
        fst (AccountViewset_update request pk w) = inl Http404
        /\ fst (AccountViewset_partial_update request pk w)
           = inl PermissionDenied
        /\ db (snd (AccountViewset_update request pk w)) = db w).
Proof.
  intros Hv Hpk Ha Hid. apply verified_inv in Hv.
  destruct Hv as (t & Ht & Hne & Hv).
  rewrite (partial_update_run request t u Ht Hne Hv), Hid.
  rewrite (update_run request t u Ht Hne Hv), Hid.
  rewrite (owned_lookup u a (db w) Hpk Ha).
  destruct (decide (clerk_id a = u)) as [Hown|Hown].
  - destruct (validate_fields (db w) (Some a) (data request) writable_fields)
      as [e0|v].
    + split; [intros resp; split; discriminate|].
      split; [reflexivity|]. intros ?. contradiction.
    + destruct (violates_unique (other_rows a (db w)) (set_attributes a v)).
      * split; [intros resp; split; discriminate|].
        split; [reflexivity|]. intros ?. contradiction.
      * split; [intros resp; split; auto|].
        split; [reflexivity|]. intros ?. contradiction.
  - split; [intros resp; split; discriminate|].
    split; [reflexivity|]. intros _. repeat split.
Qed.

(** ** The calls to the provider *)

Lemma create_run_emitted request t u new_id now w :
  META request !! "HTTP_AUTHORIZATION" = Some t -> t <> "" ->
  verdict t = inr u ->
  emitted (AccountViewset_create request new_id now) w
  = match validate_fields (db w) None (data request) writable_fields with
    | inl _ => []
    | inr _ => [EvSessionsGet t]
    end.
Proof.
  intros Ht Hne Hv.
  pose proof (create_run request t u Ht Hne Hv new_id now w) as Hrun.
  destruct (validate_fields (db w) None (data request) writable_fields)
    as [e|v].
  - apply emitted_nil. rewrite Hrun. reflexivity.
  - apply emitted_app. rewrite Hrun. cbv zeta.
    destruct (violates_unique _ _); reflexivity.
Qed.

(** X8. What a verified request costs. The list, retrieve and update
    actions of [AccountViewset] and the two other views call the provider
    once with the token of the request. The create action validates the
    body first: it calls the provider once when the body is valid and not at
    all when it is not. The partial update calls it twice when it finds no
    record of the caller under the key and three times when it does. *)
Theorem provider_calls_per_action request t pk new_id now w u :
  META request !! "HTTP_AUTHORIZATION" = Some t ->
  fst (verify_auth_token (Some t) w) = inr u ->
  emitted (AccountViewset_list request) w = [EvSessionsGet t]
  /\ emitted (AccountViewset_retrieve request pk) w = [EvSessionsGet t]
  /\ emitted (AccountViewset_update request pk) w = [EvSessionsGet t]
  /\ emitted (AccountsListView_list request) w = [EvSessionsGet t]
  /\ emitted (AccountRetrieveView_retrieve request pk) w
     = [EvSessionsGet t]
  /\ emitted (AccountViewset_create request new_id now) w
     = match validate_fields (db w) None (data request) writable_fields with
       | inl _ => []
       | inr _ => [EvSessionsGet t]
       end
  /\ emitted (AccountViewset_partial_update request pk) w
     = match uuid_of_string pk with
       | None => [EvSessionsGet t; EvSessionsGet t]
       | Some i =>
           match filter (fun a => account_id a = i)
                   (filter_clerk_id u (merge_sort created_le (db w))) with
           | [] => [EvSessionsGet t; EvSessionsGet t]
           | _ :: _ => [EvSessionsGet t; EvSessionsGet t; EvSessionsGet t]
           end
       end.
Proof.
  intros Ht Hv. apply verified_inv in Hv.
  destruct Hv as (t' & [= <-] & Hne & Hv).
  split; [|split; [|split; [|split; [|split; [|split]]]]].
  - apply emitted_app.
    rewrite (AccountViewset_list_run request t u Ht Hne Hv). reflexivity.
  - apply emitted_app.
    unfold AccountViewset_retrieve, RetrieveModelMixin_retrieve, bind.
    rewrite (AccountViewset_get_object_run request t u Ht Hne Hv).
    destruct (uuid_of_string pk); [|reflexivity].
    destruct (filter _ _); reflexivity.
  - apply emitted_app. rewrite (update_run request t u Ht Hne Hv).
    destruct (uuid_of_string pk); [|reflexivity].
    destruct (filter _ _); [reflexivity|].
    destruct (validate_fields _ _ _ _); [reflexivity|].
    destruct (violates_unique _ _); reflexivity.
  - apply emitted_app.
    rewrite (AccountsListView_list_run request t u Ht Hne Hv). reflexivity.
  - apply emitted_app.
    unfold AccountRetrieveView_retrieve, RetrieveModelMixin_retrieve, bind.
    rewrite (AccountRetrieveView_get_object_run request t u Ht Hne Hv).
    destruct (uuid_of_string pk); [|reflexivity].
    destruct (filter _ _); reflexivity.
  - apply (create_run_emitted request t u new_id now w Ht Hne Hv).
  - unfold emitted. rewrite (partial_update_run request t u Ht Hne Hv).
    destruct (uuid_of_string pk).
    + destruct (filter _ _).
      * simpl. rewrite <- !app_assoc. apply drop_app_length.
      * destruct (validate_fields _ _ _ _);
          [simpl; rewrite <- !app_assoc; apply drop_app_length|].
        destruct (violates_unique _ _);
          simpl; rewrite <- !app_assoc; apply drop_app_length.
    + simpl. rewrite <- !app_assoc. apply drop_app_length.
Qed.

(** ** The constraints of the table *)

Lemma verified_or_not oauthtoken w :
  (forall u, fst (verify_auth_token oauthtoken w) <> inr u)
  \/ exists t u, oauthtoken = Some t /\ t <> "" /\ verdict t = inr u.
Proof.
  destruct (fst (verify_auth_token oauthtoken w)) as [e|u] eqn:Hv.
  - left. intros u. discriminate.
  - right. apply verified_inv in Hv. destruct Hv as (t & ? & ? & ?). eauto.
Qed.

(** What a create leaves in the table. *)
Lemma create_effect request new_id now w :
  db (snd (AccountViewset_create request new_id now w)) = db w
  \/ exists v u,
       validate_fields (db w) None (data request) writable_fields = inr v
       /\ violates_unique (db w)
            (set_attributes (mkAccount new_id None None None now)
               (<["clerk_id" := u]> v)) = false
       /\ db (snd (AccountViewset_create request new_id now w))
          = db w ++ [set_attributes (mkAccount new_id None None None now)
                       (<["clerk_id" := u]> v)].
Proof.
  destruct (verified_or_not (META request !! "HTTP_AUTHORIZATION") w)
    as [Hno|(t & u & Ht & Hne & Hv)].
  - left. apply create_unverified_db. assumption.
  - rewrite (create_run request t u Ht Hne Hv).
    destruct (validate_fields (db w) None (data request) writable_fields)
      as [e|v]; [left; reflexivity|].
    cbv zeta. destruct (violates_unique _ _) eqn:Hviol; [left; reflexivity|].
    right. exists v, u. auto.
Qed.

(** What an update leaves in the table, with or without [partial]. *)
Lemma update_effect request pk w :
  (db (snd (AccountViewset_update request pk w)) = db w
   /\ db (snd (AccountViewset_partial_update request pk w)) = db w)
  \/ exists a v,
       a ∈ db w
       /\ validate_fields (db w) (Some a) (data request) writable_fields
          = inr v
       /\ violates_unique (other_rows a (db w)) (set_attributes a v) = false
       /\ db (snd (AccountViewset_update request pk w))
          = write_row (set_attributes a v) (db w)
       /\ db (snd (AccountViewset_partial_update request pk w))
          = write_row (set_attributes a v) (db w).
Proof.
  destruct (verified_or_not (META request !! "HTTP_AUTHORIZATION") w)
    as [Hno|(t & u & Ht & Hne & Hv)].
  - left. split.
    + apply (update_refuses request w Hno pk).
    + apply (partial_update_unverified request pk w Hno).
  - rewrite (partial_update_run request t u Ht Hne Hv).
    rewrite (update_run request t u Ht Hne Hv).
    destruct (uuid_of_string pk) as [i|]; [|left; split; reflexivity].
    destruct (filter (fun a => account_id a = i) _) as [|a l] eqn:Hf;
      [left; split; reflexivity|].
    assert (Ha : a ∈ db w).
    { assert (Hin : a ∈ a :: l) by left. rewrite <- Hf in Hin.
      apply list_elem_of_filter in Hin. destruct Hin as [_ Hin].
      apply elem_of_owned in Hin. tauto. }
    destruct (validate_fields (db w) (Some a) (data request) writable_fields)
      as [e|v] eqn:Hval; [left; split; reflexivity|].
    destruct (violates_unique _ _) eqn:Hviol; [left; split; reflexivity|].
    right. exists a, v. auto.
Qed.

Lemma violates_unique_false (others : list Account) (a b : Account) :
  violates_unique others a = false -> b ∈ others ->
  account_id b <> account_id a
  /\ (is_Some (clerk_id a) -> clerk_id b <> clerk_id a)
  /\ (is_Some (username a) -> username b <> username a).
Proof.
  intros Hno Hb. unfold violates_unique in Hno.
  assert (Hb' :
    bool_decide (account_id b = account_id a)
    || bool_decide (is_Some (clerk_id a))
       && bool_decide (clerk_id b = clerk_id a)
    || bool_decide (is_Some (username a))
       && bool_decide (username b = username a) = false).
  { destruct (_ || _ || _) eqn:E; [|reflexivity].
    rewrite <- Hno. symmetry. apply existsb_exists. exists b.
    split; [apply list_elem_of_In, Hb|exact E]. }
  apply orb_false_iff in Hb'. destruct Hb' as [Hb' Hu].
  apply orb_false_iff in Hb'. destruct Hb' as [Hi Hc].
  split; [apply bool_decide_eq_false in Hi; exact Hi|]. split.
  - intros Hs Heq. rewrite bool_decide_eq_true_2 in Hc by assumption.
    rewrite bool_decide_eq_true_2 in Hc by assumption. discriminate.
  - intros Hs Heq. rewrite bool_decide_eq_true_2 in Hu by assumption.
    rewrite bool_decide_eq_true_2 in Hu by assumption. discriminate.
Qed.

Lemma unique_when_set_append field rows a :
  unique_when_set field rows ->
  (forall b, b ∈ rows -> is_Some (field a) -> field b <> field a) ->
  unique_when_set field (rows ++ [a]).
Proof.
  intros Hu Hnew x y Hx Hy Hs Heq.
  apply elem_of_app in Hx. apply elem_of_app in Hy.
  rewrite list_elem_of_singleton in Hx, Hy.
  destruct Hx as [Hx| ->], Hy as [Hy| ->].
  - apply Hu; assumption.
  - destruct (Hnew x Hx); [rewrite <- Heq|]; assumption.
  - destruct (Hnew y Hy Hs). symmetry. assumption.
  - reflexivity.
Qed.

Lemma elem_of_write_row (a' x : Account) (rows : list Account) :
  x ∈ write_row a' rows ->
  x = a' \/ (x ∈ rows /\ account_id x <> account_id a').
Proof.
  unfold write_row. intros Hx. apply list_elem_of_In, in_map_iff in Hx.
  destruct Hx as (b & Hb & Hin). apply list_elem_of_In in Hin.
  destruct (decide (account_id b = account_id a')); [left|right]; subst;
    auto.
Qed.

Lemma unique_when_set_write field rows a a' :
  unique_when_set field rows ->
  account_id a' = account_id a ->
  (forall b, b ∈ other_rows a rows -> is_Some (field a') ->
             field b <> field a') ->
  unique_when_set field (write_row a' rows).
Proof.
  intros Hu Hid Hnew x y Hx Hy Hs Heq.
  assert (Hother : forall b, b ∈ rows -> account_id b <> account_id a' ->
                             b ∈ other_rows a rows).
  { intros b Hb Hne. unfold other_rows. apply list_elem_of_filter.
    split; [congruence|assumption]. }
  apply elem_of_write_row in Hx. apply elem_of_write_row in Hy.
  destruct Hx as [->|[Hx Hxn]], Hy as [->|[Hy Hyn]].
  - reflexivity.
  - destruct (Hnew y (Hother y Hy Hyn) Hs). symmetry. assumption.
  - destruct (Hnew x (Hother x Hx Hxn)); [rewrite <- Heq|]; assumption.
  - apply Hu; assumption.
Qed.

Lemma table_constraints_append rows a :
  table_constraints rows -> violates_unique rows a = false ->
  table_constraints (rows ++ [a]).
Proof.
  intros (Hpk & Hc & Hn) Hviol. split; [|split].
  - unfold pk_unique. rewrite fmap_app. apply NoDup_app.
    split; [assumption|]. split; [|apply NoDup_singleton].
    intros x Hx Hx'. simpl in Hx'. apply list_elem_of_singleton in Hx'.
    subst x. apply (violates_unique_key _ _ Hviol). assumption.
  - apply unique_when_set_append; [assumption|].
    intros b Hb. apply (violates_unique_false rows a b Hviol Hb).
  - apply unique_when_set_append; [assumption|].
    intros b Hb. apply (violates_unique_false rows a b Hviol Hb).
Qed.

Lemma table_constraints_write rows a a' :
  table_constraints rows -> account_id a' = account_id a ->
  violates_unique (other_rows a rows) a' = false ->
  table_constraints (write_row a' rows).
Proof.
  intros (Hpk & Hc & Hn) Hid Hviol. split; [|split].
  - apply write_row_pk_unique. assumption.
  - apply (unique_when_set_write clerk_id rows a); [assumption..|].
    intros b Hb. apply (violates_unique_false _ a' b Hviol Hb).
  - apply (unique_when_set_write username rows a); [assumption..|].
    intros b Hb. apply (violates_unique_false _ a' b Hviol Hb).
Qed.

(** X9. The unique constraints that [user/models.py] declares, on the key,
    on [clerk_id] and on [username], hold after a create, an update or a
    partial update whenever they held before, whatever the request. *)
Theorem table_constraints_kept request pk new_id now w :
  table_constraints (db w) ->
  table_constraints (db (snd (AccountViewset_create request new_id now w)))
  /\ table_constraints (db (snd (AccountViewset_update request pk w)))
  /\ table_constraints
       (db (snd (AccountViewset_partial_update request pk w))).
Proof.
  intros Hok. split.
  - destruct (create_effect request new_id now w)
      as [->|(v & u & _ & Hviol & ->)]; [assumption|].
    apply table_constraints_append; assumption.
  - destruct (update_effect request pk w)
      as [[-> ->]|(a & v & Ha & _ & Hviol & -> & ->)]; [auto|].
    split; apply (table_constraints_write (db w) a); auto.
Qed.

Lemma CharField_run_validation_length max_length validators v s :
  CharField_run_validation max_length validators v = inr (Some s) ->
  String.length s <= max_length.
Proof.
  unfold CharField_run_validation. destruct v as [x|]; [|discriminate].
  destruct (decide (strip x = "")); [intros [= <-]; simpl; lia|].
  destruct (has_null_char (strip x)); [discriminate|].
  destruct (max_length <? String.length (strip x))%nat eqn:Hlen;
    [discriminate|].
  destruct (validators (strip x)); [|discriminate].
  intros [= <-]. apply Nat.ltb_ge in Hlen. exact Hlen.
Qed.

Lemma validate_fields_username rows instance body v s :
  validate_fields rows instance body writable_fields = inr v ->
  v !! "username" = Some (Some s) -> String.length s <= 16.
Proof.
  rewrite writable_fields_eq. cbn [validate_fields].
  destruct (body !! "display_pic") as [p|].
  - destruct (validate_field rows instance "display_pic" p) as [e|p'];
      [discriminate|].
    destruct (body !! "username") as [x|].
    + unfold validate_field at 1.
      destruct (decide ("username" = "username")) as [_|]; [|contradiction].
      destruct (CharField_run_validation 16 _ x) as [e|x'] eqn:Hc;
        [discriminate|].
      intros [= <-]. rewrite lookup_insert_eq. intros [= ->].
      apply (CharField_run_validation_length _ _ _ _ Hc).
    + intros [= <-]. rewrite lookup_insert_ne by discriminate.
      rewrite lookup_empty. discriminate.
  - destruct (body !! "username") as [x|].
    + unfold validate_field.
      destruct (decide ("username" = "username")) as [_|]; [|contradiction].
      destruct (CharField_run_validation 16 _ x) as [e|x'] eqn:Hc;
        [discriminate|].
      intros [= <-]. rewrite lookup_insert_eq. intros [= ->].
      apply (CharField_run_validation_length _ _ _ _ Hc).
    + intros [= <-]. rewrite lookup_empty. discriminate.
Qed.

Lemma usernames_bounded_append rows a :
  usernames_bounded rows ->
  (forall s, username a = Some s -> String.length s <= 16) ->
  usernames_bounded (rows ++ [a]).
Proof.
  intros Hb Ha x s Hx Hs. apply elem_of_app in Hx.
  destruct Hx as [Hx|Hx]; [eapply Hb; eassumption|].
  apply list_elem_of_singleton in Hx. subst x. auto.
Qed.

Lemma usernames_bounded_write rows a' :
  usernames_bounded rows ->
  (forall s, username a' = Some s -> String.length s <= 16) ->
  usernames_bounded (write_row a' rows).
Proof.
  intros Hb Ha x s Hx Hs. apply elem_of_write_row in Hx.
  destruct Hx as [->|[Hx _]]; [auto|eapply Hb; eassumption].
Qed.

Lemma set_attributes_username_bounded rows instance body a v :
  validate_fields rows instance body writable_fields = inr v ->
  (forall s, username a = Some s -> String.length s <= 16) ->
  forall s, username (set_attributes a v) = Some s -> String.length s <= 16.
Proof.
  intros Hval Ha s. simpl.
  destruct (v !! "username") as [[x|]|] eqn:Hu; simpl.
  - intros [= ->]. eapply validate_fields_username; eassumption.
  - discriminate.
  - apply Ha.
Qed.

(** X10. [max_length=16]: no write of the views stores a username of more
    than sixteen characters. When every row of the table respects the bound,
    every row does after a create, an update or a partial update. *)
Theorem usernames_bounded_kept request pk new_id now w :
  usernames_bounded (db w) ->
  usernames_bounded (db (snd (AccountViewset_create request new_id now w)))
  /\ usernames_bounded (db (snd (AccountViewset_update request pk w)))
  /\ usernames_bounded
       (db (snd (AccountViewset_partial_update request pk w))).
Proof.
  intros Hb. split.
  - destruct (create_effect request new_id now w)
      as [->|(v & u & Hval & _ & ->)]; [assumption|].
    apply usernames_bounded_append; [assumption|].
    intros s. simpl. rewrite lookup_insert_ne by discriminate.
    destruct (v !! "username") as [[x|]|] eqn:Hu; simpl; try discriminate.
    intros [= ->]. eapply validate_fields_username; eassumption.
  - destruct (update_effect request pk w)
      as [[-> ->]|(a & v & Ha & Hval & _ & -> & ->)]; [auto|].
    assert (Hnew : forall s, username (set_attributes a v) = Some s ->
                             String.length s <= 16).
    { eapply set_attributes_username_bounded; [eassumption|].
      intros s Hs. eapply Hb; eassumption. }
    split; apply usernames_bounded_write; assumption.
Qed.

(** ** What the list actions answer *)

Global Instance created_le_total : Total created_le.
Proof. intros a b. unfold created_le. lia. Qed.

Lemma at_most_one (rows : list Account) :
  pk_unique rows ->
  (forall a b, a ∈ rows -> b ∈ rows -> account_id a = account_id b) ->
  length rows <= 1.
Proof.
  unfold pk_unique. destruct rows as [|a [|b rows]]; simpl; try lia.
  intros Hnd Hsame. exfalso.
  apply NoDup_cons in Hnd. destruct Hnd as [Hn _].
  apply Hn. rewrite (Hsame a b); [left|left|right; left].
Qed.

(** X11. [AccountsListView] answers every record of the table once, the
    oldest first ([ordering = ['created']]). The list action of
    [AccountViewset] answers at most one record to a caller whose identifier
    is not [None], when the table respects its unique constraints. *)
Theorem list_actions_order request w u :
  fst (verify_auth_token (META request !! "HTTP_AUTHORIZATION") w) = inr u ->
  (exists rs,
     fst (AccountsListView_list request w)
       = inr {| status_code := 200;
                rdata := Many (map to_representation rs) |}
     /\ rs ≡ₚ db w /\ Sorted created_le rs)
  /\ (table_constraints (db w) -> is_Some u ->
        exists rs,
          fst (AccountViewset_list request w)
            = inr {| status_code := 200;
                     rdata := Many (map to_representation rs) |}
          /\ length rs <= 1).
Proof.
  intros Hv. apply verified_inv in Hv. destruct Hv as (t & Ht & Hne & Hv).
  split.
  - exists (merge_sort created_le (db w)).
    rewrite (AccountsListView_list_run request t u Ht Hne Hv).
    split; [reflexivity|]. split.
    + apply merge_sort_Permutation.
    + apply (Sorted_merge_sort created_le).
  - intros (Hpk & Hc & _) Hs.
    exists (filter_clerk_id u (merge_sort created_le (db w))).
    rewrite (AccountViewset_list_run request t u Ht Hne Hv).
    split; [reflexivity|]. apply at_most_one.
    + apply pk_unique_filter, pk_unique_sorted. assumption.
    + intros a b Ha Hb. apply elem_of_owned in Ha, Hb.
      destruct Ha as [Ha Hau], Hb as [Hb Hbu].
      apply Hc; [assumption..| |congruence]. rewrite Hau. assumption.
Qed.

(** ** One account for one identity *)

Lemma violates_unique_clerk_id (rows : list Account) (a b : Account) :
  b ∈ rows -> is_Some (clerk_id a) -> clerk_id b = clerk_id a ->
  violates_unique rows a = true.
Proof.
  intros Hb Hs Heq. unfold violates_unique. apply existsb_exists.
  exists b. split; [apply list_elem_of_In, Hb|].
  rewrite (bool_decide_eq_true_2 (is_Some (clerk_id a))) by assumption.
  rewrite (bool_decide_eq_true_2 (clerk_id b = clerk_id a)) by assumption.
  simpl. rewrite orb_true_r. reflexivity.
Qed.

(** X12. A caller whose identifier already owns a record cannot create a
    second one: the create is refused, whatever the body, and the table is
    as it was. *)
Theorem create_refuses_second_account request new_id now w c b :
  fst (verify_auth_token (META request !! "HTTP_AUTHORIZATION") w)
    = inr (Some c) ->
  b ∈ db w -> clerk_id b = Some c ->
  (forall resp,
     fst (AccountViewset_create request new_id now w) <> inr resp)
  /\ db (snd (AccountViewset_create request new_id now w)) = db w.
Proof.
  intros Hv Hb Hown. apply verified_inv in Hv.
  destruct Hv as (t & Ht & Hne & Hv).
  rewrite (create_run request t (Some c) Ht Hne Hv).
  destruct (validate_fields (db w) None (data request) writable_fields)
    as [e|v]; [split; [discriminate|reflexivity]|].
  cbv zeta. rewrite (violates_unique_clerk_id (db w) _ b Hb).
  - split; [discriminate|reflexivity].
  - simpl. rewrite lookup_insert_eq. simpl. eauto.
  - simpl. rewrite lookup_insert_eq. simpl. assumption.
Qed.

(** ** The middleware around the views *)

(** What the gate returns, read off what the rest of the pipeline
    returns. *)
Lemma gate_result self request w :
  (fst (ClerkAuthMiddleware_call self request w) = inl PermissionDenied
   /\ String.prefix "/admin" (path request) = false
   /\ (db (snd (ClerkAuthMiddleware_call self request w)) = db w
       \/ db (snd (ClerkAuthMiddleware_call self request w))
          = snd (get_response self request (db w))))
  \/ (fst (ClerkAuthMiddleware_call self request w)
      = fst (get_response self request (db w))
      /\ db (snd (ClerkAuthMiddleware_call self request w))
         = snd (get_response self request (db w))).
Proof.
  destruct (String.prefix "/admin" (path request)) eqn:Hp.
  { right. rewrite gate_run_exempt by assumption. split; reflexivity. }
  destruct (py_not (headers request !! "HTTP_AUTHORIZATION")) eqn:Hh.
  { left. rewrite gate_run_no_header by assumption. auto. }
  apply py_not_false_inv in Hh. destruct Hh as (t & Ht & Hne).
  rewrite (gate_run_checked self request w t) by assumption.
  destruct (verdict t) as [e|u]; [left; auto|].
  destruct (fst (get_response self request (db w))) as [e|r].
  - left. auto.
  - right. split; reflexivity.
Qed.


Lemma as_pipeline_run handler request rows :
  as_pipeline handler request rows
    = (fst (handler request {| db := rows; trace := [] |}),
       db (snd (handler request {| db := rows; trace := [] |}))).
Proof.
  unfold as_pipeline.
  destruct (handler request {| db := rows; trace := [] |}); reflexivity.
Qed.

Lemma run_action_unverified a request new_id now w :
  (forall u,
     fst (verify_auth_token (META request !! "HTTP_AUTHORIZATION") w)
       <> inr u) ->
  (forall resp, fst (run_action a request new_id now w) <> inr resp)
  /\ db (snd (run_action a request new_id now w)) = db w.
Proof.
  intros Hno.
  assert (Hr : forall m : M Response,
            refuses m w ->
            (forall resp, fst (m w) <> inr resp) /\ db (snd (m w)) = db w).
  { intros m [Hf Hdb]. split; [|exact Hdb]. intros resp. rewrite Hf.
    discriminate. }
  destruct a; simpl.
  - apply Hr, list_refuses; assumption.
  - split; [apply create_unverified|apply create_unverified_db]; assumption.
  - apply Hr, retrieve_refuses; assumption.
  - apply Hr, update_refuses; assumption.
  - apply Hr, partial_update_unverified; assumption.
  - apply Hr, list_view_refuses; assumption.
  - apply Hr, retrieve_view_refuses; assumption.
Qed.

(** X15. The gate and the list action compose: outside the exempt paths, a
    request that carries the same token in its header and in [META], a
    token that verifies to [u], gets the records of [u] from the list
    action behind the gate, and the gate itself calls the provider once and
    the pipeline once. *)
Theorem list_behind_gate request t w u :
  String.prefix "/admin" (path request) = false ->
  headers request !! "HTTP_AUTHORIZATION" = Some t ->
  META request !! "HTTP_AUTHORIZATION" = Some t ->
  fst (verify_auth_token (Some t) w) = inr u ->
  fst (ClerkAuthMiddleware_call
         {| get_response := as_pipeline AccountViewset_list |} request w)
    = inr {| status_code := 200;
             rdata := Many (map to_representation
                              (filter_clerk_id u
                                 (merge_sort created_le (db w)))) |}
  /\ emitted (ClerkAuthMiddleware_call
                {| get_response := as_pipeline AccountViewset_list |}
                request) w
     = [EvSessionsGet t; EvGetResponse request]
  /\ db (snd (ClerkAuthMiddleware_call
                {| get_response := as_pipeline AccountViewset_list |}
                request w)) = db w.
Proof.
  intros Hp Hh Hm Hv. apply verified_inv in Hv.
  destruct Hv as (t' & [= <-] & Hne & Hv).
  assert (Hrun :
    ClerkAuthMiddleware_call
      {| get_response := as_pipeline AccountViewset_list |} request w
    = (inr {| status_code := 200;
              rdata := Many (map to_representation
                               (filter_clerk_id u
                                  (merge_sort created_le (db w)))) |},
       {| db := db w;
          trace := trace w ++ [EvSessionsGet t; EvGetResponse request] |})).
  { rewrite (gate_run_checked _ request w t Hp Hh Hne), Hv. simpl.
    rewrite as_pipeline_run.
    rewrite (AccountViewset_list_run request t u Hm Hne Hv). reflexivity. }
  rewrite Hrun. split; [reflexivity|]. split; [|reflexivity].
  apply emitted_app. rewrite Hrun. reflexivity.
Qed.

(** ** What a write changes, and reading it back *)

Lemma validate_fields_absent rows instance body names v k :
  validate_fields rows instance body names = inr v ->
  body !! k = None -> v !! k = None.
Proof.
  revert v. induction names as [|name rest IH]; simpl.
  - intros v [= <-] _. apply lookup_empty.
  - intros v Hv Hk.
    destruct (validate_fields rows instance body rest) as [e|v0];
      [discriminate|].
    destruct (body !! name) as [x|] eqn:Hx.
    + destruct (validate_field rows instance name x) as [e|x'];
        [discriminate|].
      injection Hv as <-. rewrite lookup_insert_ne by congruence. auto.
    + injection Hv as <-. auto.
Qed.

Lemma write_row_lookup (a' b : Account) (rows : list Account) (i : nat) :
  rows !! i = Some b -> account_id b <> account_id a' ->
  write_row a' rows !! i = Some b.
Proof.
  unfold write_row. revert i. induction rows as [|c rows IH]; intros i.
  - destruct i; discriminate.
  - destruct i as [|i]; simpl.
    + intros [= ->] Hne.
      destruct (decide (account_id b = account_id a')); [contradiction|].
      reflexivity.
    + apply IH.
Qed.

Lemma write_row_length (a' : Account) (rows : list Account) :
  length (write_row a' rows) = length rows.
Proof. unfold write_row. apply length_map. Qed.

Lemma write_row_elem (a a' : Account) (rows : list Account) :
  a ∈ rows -> account_id a' = account_id a -> a' ∈ write_row a' rows.
Proof.
  intros Ha Hid. unfold write_row. apply list_elem_of_In, in_map_iff.
  exists a. split; [|apply list_elem_of_In; assumption].
  destruct (decide (account_id a = account_id a')); [reflexivity|].
  congruence.
Qed.

(** What a successful partial update found and wrote. *)
Lemma partial_update_success_inv request pk w resp w' :
  AccountViewset_partial_update request pk w = (inr resp, w') ->
  exists t u a v,
    META request !! "HTTP_AUTHORIZATION" = Some t /\ t <> ""
    /\ verdict t = inr u
    /\ a ∈ db w /\ uuid_of_string pk = Some (account_id a)
    /\ clerk_id a = u
    /\ validate_fields (db w) (Some a) (data request) writable_fields
       = inr v
    /\ resp = {| status_code := 200;
                 rdata := One (to_representation (set_attributes a v)) |}
    /\ db w' = write_row (set_attributes a v) (db w).
Proof.
  intros Hrun.
  destruct (verified_or_not (META request !! "HTTP_AUTHORIZATION") w)
    as [Hno|(t & u & Ht & Hne & Hv)].
  { destruct (partial_update_unverified request pk w Hno) as [H _].
    rewrite Hrun in H. discriminate. }
  rewrite (partial_update_run request t u Ht Hne Hv) in Hrun.
  destruct (uuid_of_string pk) as [i|] eqn:Hi; [|discriminate].
  destruct (filter (fun a => account_id a = i) _) as [|a l] eqn:Hf;
    [discriminate|].
  assert (Hin : a ∈ filter (fun a => account_id a = i)
                     (filter_clerk_id u (merge_sort created_le (db w))))
    by (rewrite Hf; left).
  apply list_elem_of_filter in Hin. destruct Hin as [Hai Hin].
  apply elem_of_owned in Hin. destruct Hin as [Ha Hown].
  destruct (validate_fields (db w) (Some a) (data request) writable_fields)
    as [e|v] eqn:Hval; [discriminate|].
  destruct (violates_unique _ _); [discriminate|].
  injection Hrun as <- <-.
  exists t, u, a, v. repeat split; try assumption; congruence.
Qed.

(** X16. A partial update that succeeds writes one row and nothing else:
    the table keeps its length, every row with another key stays where it
    was, and the written row keeps its key, its owner and its creation time,
    and each of [username] and [display_pic] that the body does not
    carry. *)
Theorem partial_update_frame request pk w resp w' :
  AccountViewset_partial_update request pk w = (inr resp, w') ->
  exists a a',
    a ∈ db w /\ uuid_of_string pk = Some (account_id a)
    /\ db w' = write_row a' (db w)
    /\ account_id a' = account_id a
    /\ clerk_id a' = clerk_id a
    /\ created a' = created a
    /\ (data request !! "username" = None -> username a' = username a)
    /\ (data request !! "display_pic" = None ->
          display_pic a' = display_pic a)
    /\ length (db w') = length (db w)
    /\ (forall i b, db w !! i = Some b ->
                    account_id b <> account_id a -> db w' !! i = Some b).
Proof.
  intros Hrun. apply partial_update_success_inv in Hrun.
  destruct Hrun as (t & u & a & v & _ & _ & _ & Ha & Hid & _ & Hval & _ & ->).
  exists a, (set_attributes a v).
  split; [assumption|]. split; [assumption|]. split; [reflexivity|].
  split; [reflexivity|]. split.
  { simpl. rewrite (validate_fields_keys _ _ _ _ _ "clerk_id" Hval
                      clerk_id_not_writable). reflexivity. }
  split; [reflexivity|]. split.
  { intros Hk. simpl.
    rewrite (validate_fields_absent _ _ _ _ _ _ Hval Hk). reflexivity. }
  split.
  { intros Hk. simpl.
    rewrite (validate_fields_absent _ _ _ _ _ _ Hval Hk). reflexivity. }
  split; [apply write_row_length|].
  intros i b Hb Hne. apply write_row_lookup; assumption.
Qed.

(** X17. A record that was created can be read back: after a create that
    succeeds, the same caller retrieves, under the key of the new record
    and through either retrieve endpoint, the payload that the create
    answered. *)
Theorem create_then_retrieve request pk new_id now w resp w' :
  pk_unique (db w) -> uuid_of_string pk = Some new_id ->
  AccountViewset_create request new_id now w = (inr resp, w') ->
  status_code resp = 201
  /\ fst (AccountViewset_retrieve request pk w')
     = inr {| status_code := 200; rdata := rdata resp |}
  /\ fst (AccountRetrieveView_retrieve request pk w')
     = inr {| status_code := 200; rdata := rdata resp |}.
Proof.
  intros Hpk Hid Hrun.
  pose proof (create_pk_unique request new_id now w Hpk) as Hpk'.
  rewrite Hrun in Hpk'. simpl in Hpk'.
  destruct (verified_or_not (META request !! "HTTP_AUTHORIZATION") w)
    as [Hno|(t & u & Ht & Hne & Hv)].
  { destruct (create_unverified request new_id now w Hno resp).
    rewrite Hrun. reflexivity. }
  rewrite (create_run request t u Ht Hne Hv) in Hrun.
  destruct (validate_fields (db w) None (data request) writable_fields)
    as [e|v]; [discriminate|].
  cbv zeta in Hrun. destruct (violates_unique _ _); [discriminate|].
  injection Hrun as <- <-. simpl in Hpk'.
  set (a := set_attributes (mkAccount new_id None None None now)
              (<["clerk_id" := u]> v)) in *.
  assert (Ha : a ∈ db w ++ [a]) by (apply elem_of_app; right; left).
  assert (Hown : clerk_id a = u)
    by (subst a; simpl; rewrite lookup_insert_eq; reflexivity).
  split; [reflexivity|]. split.
  - unfold AccountViewset_retrieve, RetrieveModelMixin_retrieve, bind.
    rewrite (AccountViewset_get_object_run request t u Ht Hne Hv).
    simpl db. rewrite Hid.
    pose proof (owned_lookup u a (db w ++ [a]) Hpk' Ha) as Hl.
    change (account_id a) with new_id in Hl. rewrite Hl.
    destruct (decide (clerk_id a = u)); [reflexivity|contradiction].
  - unfold AccountRetrieveView_retrieve, RetrieveModelMixin_retrieve, bind.
    rewrite (AccountRetrieveView_get_object_run request t u Ht Hne Hv).
    simpl db. rewrite Hid.
    pose proof (filter_pk_found (merge_sort created_le (db w ++ [a])) a
                  (pk_unique_sorted _ Hpk')
                  (proj2 (elem_of_sorted a _) Ha)) as Hl.
    change (account_id a) with new_id in Hl. rewrite Hl. reflexivity.
Qed.

(** X18. A record that was updated can be read back: after a partial
    update that succeeds, the same caller retrieves under the same key the
    response that the update answered. *)
Theorem partial_update_then_retrieve request pk w resp w' :
  pk_unique (db w) ->
  AccountViewset_partial_update request pk w = (inr resp, w') ->
  fst (AccountViewset_retrieve request pk w') = inr resp
  /\ fst (AccountRetrieveView_retrieve request pk w') = inr resp.
Proof.
  intros Hpk Hrun. apply partial_update_success_inv in Hrun.
  destruct Hrun
    as (t & u & a & v & Ht & Hne & Hv & Ha & Hid & Hown & Hval & -> & Hdb).
  set (a' := set_attributes a v) in *.
  assert (Hpk' : pk_unique (db w'))
    by (rewrite Hdb; apply write_row_pk_unique; assumption).
  assert (Ha' : a' ∈ db w')
    by (rewrite Hdb; apply (write_row_elem a); [assumption|reflexivity]).
  assert (Hown' : clerk_id a' = u).
  { subst a'. simpl.
    rewrite (validate_fields_keys _ _ _ _ _ "clerk_id" Hval
               clerk_id_not_writable). exact Hown. }
  split.
  - unfold AccountViewset_retrieve, RetrieveModelMixin_retrieve, bind.
    rewrite (AccountViewset_get_object_run request t u Ht Hne Hv).
    rewrite Hid.
    pose proof (owned_lookup u a' (db w') Hpk' Ha') as Hl.
    change (account_id a') with (account_id a) in Hl. rewrite Hl.
    destruct (decide (clerk_id a' = u)); [reflexivity|contradiction].
  - unfold AccountRetrieveView_retrieve, RetrieveModelMixin_retrieve, bind.
    rewrite (AccountRetrieveView_get_object_run request t u Ht Hne Hv).
    rewrite Hid.
    pose proof (filter_pk_found (merge_sort created_le (db w')) a'
                  (pk_unique_sorted _ Hpk')
                  (proj2 (elem_of_sorted a' _) Ha')) as Hl.
    change (account_id a') with (account_id a) in Hl. rewrite Hl.
    reflexivity.
Qed.

(** * The records in the responses *)

Lemma to_representation_same_but_owner (a b : Account) :
  same_but_owner a b -> to_representation a = to_representation b.
Proof.
  intros (Hi & Hn & Hp & Hc). unfold to_representation. simpl.
  unfold get_attribute. simpl. rewrite Hi, Hn, Hp, Hc. reflexivity.
Qed.

Lemma map_to_representation_same_but_owner (rows rows' : list Account) :
  Forall2 same_but_owner rows rows' ->
  map to_representation rows = map to_representation rows'.
Proof.
  induction 1 as [|a b rows rows' Hab _ IH]; [reflexivity|].
  simpl. rewrite IH. f_equal. apply to_representation_same_but_owner, Hab.
Qed.

Lemma shows_same_but_owner a resp (rows rows' : list Account) :
  shows a resp rows -> Forall2 same_but_owner rows rows' ->
  shows a resp rows'.
Proof.
  intros Hs Hrows.
  assert (Hone :
    (exists r, rows = [r] /\ rdata resp = One (to_representation r)) ->
    exists r, rows' = [r] /\ rdata resp = One (to_representation r)).
  { intros (r & -> & Hr). inversion Hrows as [|? r' ? tl Hrr' Htl]; subst.
    inversion Htl; subst. exists r'. split; [reflexivity|].
    rewrite Hr. f_equal. apply to_representation_same_but_owner, Hrr'. }
  assert (Hmany :
    rdata resp = Many (map to_representation rows) ->
    rdata resp = Many (map to_representation rows')).
  { intros ->. f_equal. apply map_to_representation_same_but_owner, Hrows. }
  destruct a; simpl in *; auto.
Qed.

(** The record that the lookup of a detail action finds. *)
Lemma filter_pk_head (i : N) (qs : list Account) (a : Account) l :
  filter (fun b => account_id b = i) qs = a :: l ->
  a ∈ qs /\ account_id a = i.
Proof.
  intros Hf. assert (Ha : a ∈ filter (fun b => account_id b = i) qs)
    by (rewrite Hf; left).
  apply list_elem_of_filter in Ha. tauto.
Qed.

(** What an action that answers has in its response, and where the records
    of the response are. *)
Lemma run_action_shows a request new_id now w resp :
  fst (run_action a request new_id now w) = inr resp ->
  exists rows,
    shows a resp rows
    /\ forall r, r ∈ rows ->
          r ∈ db (snd (run_action a request new_id now w))
          /\ addresses a new_id r.
Proof.
  intros Hrun.
  destruct (verified_or_not (META request !! "HTTP_AUTHORIZATION") w)
    as [Hno|(t & u & Ht & Hne & Hv)].
  { destruct (run_action_unverified a request new_id now w Hno) as [H _].
    destruct (H resp Hrun). }
  destruct a as [| |pk|pk|pk| |pk]; simpl in Hrun |- *.
  - rewrite (AccountViewset_list_run request t u Ht Hne Hv) in Hrun |- *.
    simpl in Hrun |- *. injection Hrun as <-.
    exists (filter_clerk_id u (merge_sort created_le (db w))).
    split; [reflexivity|]. intros r Hr. apply (proj1 (elem_of_owned _ _ _)) in Hr. tauto.
  - rewrite (create_run request t u Ht Hne Hv) in Hrun |- *.
    destruct (validate_fields (db w) None (data request) writable_fields)
      as [e|v]; [discriminate|].
    cbv zeta in Hrun |- *. destruct (violates_unique _ _); [discriminate|].
    simpl in Hrun |- *. injection Hrun as <-.
    eexists [_]. split; [eexists; split; reflexivity|].
    intros r Hr. apply list_elem_of_singleton in Hr. subst r.
    split; [|reflexivity]. apply elem_of_app. right. left.
  - unfold AccountViewset_retrieve, RetrieveModelMixin_retrieve, bind
      in Hrun |- *.
    rewrite (AccountViewset_get_object_run request t u Ht Hne Hv)
      in Hrun |- *.
    destruct (uuid_of_string pk) as [i|] eqn:Hi; [|discriminate].
    destruct (filter (fun a => account_id a = i) _) as [|a l] eqn:Hf;
      [discriminate|].
    apply filter_pk_head in Hf. destruct Hf as [Ha Hid].
    apply (proj1 (elem_of_owned _ _ _)) in Ha. destruct Ha as [Ha _].
    simpl in Hrun |- *. injection Hrun as <-.
    exists [a]. split; [exists a; split; reflexivity|].
    intros r Hr. apply list_elem_of_singleton in Hr. subst r.
    split; [exact Ha|]. rewrite Hid. reflexivity.
  - rewrite (update_run request t u Ht Hne Hv) in Hrun |- *.
    destruct (uuid_of_string pk) as [i|] eqn:Hi; [|discriminate].
    destruct (filter (fun a => account_id a = i) _) as [|a l] eqn:Hf;
      [discriminate|].
    apply filter_pk_head in Hf. destruct Hf as [Ha Hid].
    apply (proj1 (elem_of_owned _ _ _)) in Ha. destruct Ha as [Ha _].
    destruct (validate_fields (db w) (Some a) (data request) writable_fields)
      as [e|v]; [discriminate|].
    destruct (violates_unique _ _); [discriminate|].
    simpl in Hrun |- *. injection Hrun as <-.
    exists [set_attributes a v].
    split; [exists (set_attributes a v); split; reflexivity|].
    intros r Hr. apply list_elem_of_singleton in Hr. subst r. split.
    + apply (write_row_elem a); [exact Ha|reflexivity].
    + simpl. rewrite Hid. reflexivity.
  - destruct (AccountViewset_partial_update request pk w) as [r0 w'] eqn:Hpu.
    simpl in Hrun |- *. subst r0.
    apply partial_update_success_inv in Hpu.
    destruct Hpu as (t' & u' & a & v & _ & _ & _ & Ha & Hpk & _ & _ & -> & ->).
    exists [set_attributes a v].
    split; [exists (set_attributes a v); split; reflexivity|].
    intros r Hr. apply list_elem_of_singleton in Hr. subst r. split.
    + apply (write_row_elem a); [exact Ha|reflexivity].
    + exact Hpk.
  - rewrite (AccountsListView_list_run request t u Ht Hne Hv) in Hrun |- *.
    simpl in Hrun |- *. injection Hrun as <-.
    exists (merge_sort created_le (db w)).
    split; [reflexivity|]. intros r Hr. apply (proj1 (elem_of_sorted _ _)) in Hr.
    split; [exact Hr|exact I].
  - unfold AccountRetrieveView_retrieve, RetrieveModelMixin_retrieve, bind
      in Hrun |- *.
    rewrite (AccountRetrieveView_get_object_run request t u Ht Hne Hv)
      in Hrun |- *.
    destruct (uuid_of_string pk) as [i|] eqn:Hi; [|discriminate].
    destruct (filter (fun a => account_id a = i) _) as [|a l] eqn:Hf;
      [discriminate|].
    apply filter_pk_head in Hf. destruct Hf as [Ha Hid].
    apply (proj1 (elem_of_sorted _ _)) in Ha.
    simpl in Hrun |- *. injection Hrun as <-.
    exists [a]. split; [exists a; split; reflexivity|].
    intros r Hr. apply list_elem_of_singleton in Hr. subst r.
    split; [exact Ha|]. rewrite Hid. reflexivity.
Qed.

(** C9. The representation of an account holds exactly the fields
    [account_id], [username], [display_pic] and [created], in that order,
    and does not depend on [clerk_id]: two accounts that differ in their
    [clerk_id] only have the same representation. This representation is
    what every endpoint exposes: whenever one of the seven routed actions
    (the list, create, retrieve, update and partial update actions of
    [AccountViewset], the list action of [AccountsListView] and the
    retrieve action of [AccountRetrieveView]) answers, the payload of its
    response is the output of the serializer, and nothing else, on records
    that are in the table when the action has run and that are the
    records the action was asked for; and the same response would show
    records that differ from these in their [clerk_id] only. *)
Theorem representation_hides_clerk_id
    (i : N) (c1 c2 n p : option string) (d : Z) :
  map fst (to_representation (mkAccount i c1 n p d))
    = ["account_id"; "username"; "display_pic"; "created"]
  /\ to_representation (mkAccount i c1 n p d)
     = to_representation (mkAccount i c2 n p d)
  /\ (forall a request new_id now w resp,
        fst (run_action a request new_id now w) = inr resp ->
        exists rows,
          shows a resp rows
          /\ (forall r, r ∈ rows ->
                r ∈ db (snd (run_action a request new_id now w))
                /\ addresses a new_id r)
          /\ (forall rows',
                Forall2 same_but_owner rows rows' -> shows a resp rows')).
Proof.
  split; [reflexivity|]. split; [reflexivity|].
  intros a request new_id now w resp Hrun.
  destruct (run_action_shows a request new_id now w resp Hrun)
    as (rows & Hshows & Hrows).
  exists rows. split; [exact Hshows|]. split; [exact Hrows|].
  intros rows'. apply shows_same_but_owner, Hshows.
Qed.

End Channels.

(** * Runs on the fixtures *)

(** C5, refuted as stated: when the provider call fails at the transport
    level, the verifier fails with the transport error, not with
    [PermissionDenied]. *)
Lemma verify_auth_token_transport_error :
  Fixtures.clerk "unreachable_token" = Raised (SDKOtherError "ConnectError")
  /\ fst (verify_auth_token Fixtures.clerk (Some "unreachable_token")
            Fixtures.world0)
     = inl (SDKError (SDKOtherError "ConnectError"))
  /\ fst (verify_auth_token Fixtures.clerk (Some "unreachable_token")
            Fixtures.world0)
     <> inl PermissionDenied.
Proof.
  split; [vm_compute; reflexivity|].
  split; [vm_compute; reflexivity|].
  intros H. vm_compute in H. discriminate.
Qed.

(** The cases of [ClerkAuthUtilityTest]. *)
Example verify_auth_token_cases :
  fst (verify_auth_token Fixtures.clerk (Some "valid_token") Fixtures.world0)
    = inr (Some "clerk_user_1")
  /\ verify_auth_token Fixtures.clerk (Some "") Fixtures.world0
     = (inl PermissionDenied, Fixtures.world0)
  /\ verify_auth_token Fixtures.clerk None Fixtures.world0
     = (inl PermissionDenied, Fixtures.world0)
  /\ fst (verify_auth_token Fixtures.clerk (Some "invalid_token")
            Fixtures.world0) = inl PermissionDenied
  /\ fst (verify_auth_token Fixtures.clerk (Some "token_without_user")
            Fixtures.world0) = inl PermissionDenied
  /\ fst (verify_auth_token Fixtures.clerk (Some "token_none_session")
            Fixtures.world0) = inl PermissionDenied
  /\ trace (snd (verify_auth_token Fixtures.clerk (Some "valid_token")
                   Fixtures.world0)) = [EvSessionsGet "valid_token"].
Proof. repeat split; vm_compute; reflexivity. Qed.

(** The validation of the serializer on a few bodies. *)
Example validate_fields_cases :
  validate_fields Fixtures.is_url (db Fixtures.world0) None
    {[ "username" := Some "  newuser ";
       "display_pic" := Some "https://example.com/newpic.jpg";
       "clerk_id" := Some "clerk_user_2" ]} writable_fields
  = inr {[ "username" := Some "newuser";
           "display_pic" := Some "https://example.com/newpic.jpg" ]}
  /\ validate_fields Fixtures.is_url (db Fixtures.world0) None
       {[ "username" := Some "user1" ]} writable_fields
     = inl ValidationError
  /\ validate_fields Fixtures.is_url (db Fixtures.world0)
       (Some Fixtures.account1) {[ "username" := Some "user1" ]}
       writable_fields
     = inr {[ "username" := Some "user1" ]}
  /\ validate_fields Fixtures.is_url (db Fixtures.world0) None
       {[ "display_pic" := Some "not a url" ]} writable_fields
     = inl ValidationError.
Proof. repeat split; vm_compute; reflexivity. Qed.

(** [test_middleware_exempts_admin_subpath]: the gate around the fixture
    pipeline hands an administrative request over and calls nothing else. *)
Lemma gate_runs_pipeline_on_admin :
  String.prefix "/admin" (path Fixtures.admin_request) = true
  /\ emitted
       (ClerkAuthMiddleware_call Fixtures.clerk
          {| get_response := Fixtures.downstream |} Fixtures.admin_request)
       Fixtures.world0
     = [EvGetResponse Fixtures.admin_request].
Proof.
  split; [reflexivity|].
  apply (exempt_path_bypasses_verifier Fixtures.clerk
           {| get_response := Fixtures.downstream |}
           Fixtures.admin_request Fixtures.world0).
  reflexivity.
Defined.



Lemma world0_pk_unique : pk_unique (db Fixtures.world0).
Proof.
  unfold pk_unique. simpl. apply NoDup_cons. split.
  - intros H. apply list_elem_of_singleton in H. discriminate.
  - apply NoDup_singleton.
Qed.

Lemma valid_token_verifies (body : gmap string (option string)) :
  fst (verify_auth_token Fixtures.clerk
         (META (Fixtures.api_request "valid_token" body)
            !! "HTTP_AUTHORIZATION") Fixtures.world0)
  = inr (Some "clerk_user_1").
Proof. vm_compute. reflexivity. Qed.

(** C1, refuted as stated: on the table of two accounts owned by
    [clerk_user_1] and [clerk_user_2], the list action of [AccountsListView]
    answers both records to the caller verified as [clerk_user_1]. *)
Lemma AccountsListView_lists_other_owners :
  fst (verify_auth_token Fixtures.clerk
         (META (Fixtures.api_request "valid_token" ∅)
            !! "HTTP_AUTHORIZATION") Fixtures.world0)
  = inr (Some "clerk_user_1")
  /\ fst (AccountsListView_list Fixtures.clerk
            (Fixtures.api_request "valid_token" ∅) Fixtures.world0)
     = inr {| status_code := 200;
              rdata := Many [to_representation Fixtures.account1;
                             to_representation Fixtures.account2] |}
  /\ clerk_id Fixtures.account2 <> Some "clerk_user_1"
  /\ ~ lists_exactly_owned Fixtures.clerk
         (AccountsListView_list Fixtures.clerk).
Proof.
  assert (Hrun :
    fst (AccountsListView_list Fixtures.clerk
           (Fixtures.api_request "valid_token" ∅) Fixtures.world0)
    = inr {| status_code := 200;
             rdata := Many [to_representation Fixtures.account1;
                            to_representation Fixtures.account2] |})
    by (vm_compute; reflexivity).
  split; [apply valid_token_verifies|]. split; [exact Hrun|].
  split; [discriminate|].
  intros Hclaim.
  destruct (Hclaim (Fixtures.api_request "valid_token" ∅) Fixtures.world0
              (Some "clerk_user_1") (valid_token_verifies ∅))
    as (rs & Hresp & Hmem).
  rewrite Hrun in Hresp. injection Hresp as Hrs.
  destruct rs as [|x [|y [|z rs]]]; try discriminate.
  injection Hrs as _ Hy.
  assert (Hin : y ∈ [x; y]) by (right; left).
  apply Hmem in Hin. destruct Hin as [Hin Hown]. simpl in Hin.
  apply elem_of_cons in Hin. destruct Hin as [->|Hin].
  - vm_compute in Hy. discriminate.
  - apply list_elem_of_singleton in Hin. subst y. discriminate.
Qed.

(** The list action of [AccountViewset] on the same table and caller. *)
Example AccountViewset_list_filtered_by_clerk_id :
  fst (AccountViewset_list Fixtures.clerk
         (Fixtures.api_request "valid_token" ∅) Fixtures.world0)
  = inr {| status_code := 200;
           rdata := Many [to_representation Fixtures.account1] |}.
Proof. vm_compute. reflexivity. Qed.

(** C7, refuted as stated: the record of [clerk_user_2] exists, and the
    retrieve action of [AccountViewset] answers 404 for it to the caller
    verified as [clerk_user_1], while [AccountRetrieveView] answers its
    payload: the outcome depends on the owner. *)
Lemma AccountViewset_retrieve_hides_other_owner :
  fst (verify_auth_token Fixtures.clerk
         (META (Fixtures.api_request "valid_token" ∅)
            !! "HTTP_AUTHORIZATION") Fixtures.world0)
  = inr (Some "clerk_user_1")
  /\ Fixtures.account2 ∈ db Fixtures.world0
  /\ Fixtures.parse_uuid Fixtures.uuid2
     = Some (account_id Fixtures.account2)
  /\ fst (AccountViewset_retrieve Fixtures.clerk Fixtures.parse_uuid
            (Fixtures.api_request "valid_token" ∅) Fixtures.uuid2
            Fixtures.world0)
     = inl Http404
  /\ fst (AccountRetrieveView_retrieve Fixtures.clerk Fixtures.parse_uuid
            (Fixtures.api_request "valid_token" ∅) Fixtures.uuid2
            Fixtures.world0)
     = inr {| status_code := 200;
              rdata := One (to_representation Fixtures.account2) |}.
Proof.
  split; [apply valid_token_verifies|]. split; [right; left|].
  split; [reflexivity|]. split; vm_compute; reflexivity.
Qed.

(** [AccountRetrieveView] on a key that no record has: the [Http404] of the
    lookup is raised inside the [try] of [get_object] and leaves it as
    [PermissionDenied], a 403. *)
Example AccountRetrieveView_missing_record :
  Fixtures.parse_uuid Fixtures.uuid9 = Some 9%N
  /\ Forall (fun a => account_id a <> 9%N) (db Fixtures.world0)
  /\ fst (AccountRetrieveView_retrieve Fixtures.clerk Fixtures.parse_uuid
            (Fixtures.api_request "valid_token" ∅) Fixtures.uuid9
            Fixtures.world0)
     = inl PermissionDenied
  /\ status_of_exn PermissionDenied = 403
  /\ fst (AccountViewset_retrieve Fixtures.clerk Fixtures.parse_uuid
            (Fixtures.api_request "valid_token" ∅) Fixtures.uuid9
            Fixtures.world0)
     = inl Http404.
Proof.
  split; [reflexivity|]. split.
  - repeat constructor; discriminate.
  - split; [vm_compute; reflexivity|]. split; [reflexivity|].
    vm_compute. reflexivity.
Qed.

(** The caller verified as [clerk_user_1] retrieves the record of
    [clerk_user_2] through [AccountRetrieveView]. *)
Lemma AccountRetrieveView_ignores_owner :
  fst (AccountRetrieveView_retrieve Fixtures.clerk Fixtures.parse_uuid
         (Fixtures.api_request "valid_token" ∅) Fixtures.uuid2
         Fixtures.world0)
  = inr {| status_code := 200;
           rdata := One (to_representation Fixtures.account2) |}.
Proof.
  apply (proj1 (retrieve_endpoints_scope Fixtures.clerk Fixtures.parse_uuid
                  (Fixtures.api_request "valid_token" ∅) Fixtures.uuid2
                  Fixtures.world0 (Some "clerk_user_1")
                  (valid_token_verifies ∅) world0_pk_unique)).
  - right. left.
  - reflexivity.
Defined.

(** C2, refuted as stated: the caller verified as [clerk_user_1] updates the
    record it owns with a [username] of seventeen characters; the update is
    refused with [PermissionDenied] although the owner is the caller. *)
Lemma partial_update_own_record_rejected :
  fst (verify_auth_token Fixtures.clerk
         (META (Fixtures.api_request "valid_token"
                  {[ "username" := Some "seventeen_chars_x" ]})
            !! "HTTP_AUTHORIZATION") Fixtures.world0)
  = inr (Some "clerk_user_1")
  /\ Fixtures.account1 ∈ db Fixtures.world0
  /\ Fixtures.parse_uuid Fixtures.uuid1
     = Some (account_id Fixtures.account1)
  /\ clerk_id Fixtures.account1 = Some "clerk_user_1"
  /\ String.length "seventeen_chars_x" = 17
  /\ AccountViewset_partial_update Fixtures.clerk Fixtures.parse_uuid
       Fixtures.is_url
       (Fixtures.api_request "valid_token"
          {[ "username" := Some "seventeen_chars_x" ]})
       Fixtures.uuid1 Fixtures.world0
     = (inl PermissionDenied,
        {| db := db Fixtures.world0;
           trace := [EvSessionsGet "valid_token";
                     EvSessionsGet "valid_token";
                     EvSessionsGet "valid_token"] |}).
Proof.
  split; [apply valid_token_verifies|]. split; [left|].
  split; [reflexivity|]. split; [reflexivity|]. split; [reflexivity|].
  vm_compute. reflexivity.
Qed.

(** [test_partial_update_own_account]: the owner renames its record. *)
Lemma partial_update_own_record_accepted :
  exists resp,
    fst (AccountViewset_partial_update Fixtures.clerk Fixtures.parse_uuid
           Fixtures.is_url
           (Fixtures.api_request "valid_token"
              {[ "username" := Some "updated_user1" ]})
           Fixtures.uuid1 Fixtures.world0)
    = inr resp.
Proof.
  apply (partial_update_authorised Fixtures.clerk Fixtures.parse_uuid
           Fixtures.is_url
           (Fixtures.api_request "valid_token"
              {[ "username" := Some "updated_user1" ]})
           Fixtures.uuid1 Fixtures.world0 (Some "clerk_user_1")
           Fixtures.account1).
  - apply valid_token_verifies.
  - apply world0_pk_unique.
  - left.
  - reflexivity.
  - split; [reflexivity|]. eexists. split.
    + vm_compute. reflexivity.
    + vm_compute. reflexivity.
Defined.

(** The other account is out of reach of the caller. *)
Example partial_update_other_account :
  AccountViewset_partial_update Fixtures.clerk Fixtures.parse_uuid
    Fixtures.is_url
    (Fixtures.api_request "valid_token"
       {[ "username" := Some "hacked_user2" ]})
    Fixtures.uuid2 Fixtures.world0
  = (inl PermissionDenied,
     {| db := db Fixtures.world0;
        trace := [EvSessionsGet "valid_token";
                  EvSessionsGet "valid_token"] |}).
Proof. vm_compute. reflexivity. Qed.

(** After that update both rows have the owner they had. *)
Lemma partial_update_keeps_owner_on_fixture :
  map (fun b => (account_id b, clerk_id b))
    (db (snd (AccountViewset_partial_update Fixtures.clerk
                Fixtures.parse_uuid Fixtures.is_url
                (Fixtures.api_request "valid_token"
                   {[ "username" := Some "updated_user1" ]})
                Fixtures.uuid1 Fixtures.world0)))
  = [(1%N, Some "clerk_user_1"); (2%N, Some "clerk_user_2")].
Proof.
  destruct (AccountViewset_partial_update Fixtures.clerk
              Fixtures.parse_uuid Fixtures.is_url
              (Fixtures.api_request "valid_token"
                 {[ "username" := Some "updated_user1" ]})
              Fixtures.uuid1 Fixtures.world0) as [[e|resp] w'] eqn:Hrun.
  - vm_compute in Hrun. discriminate.
  - destruct (partial_update_keeps_owner Fixtures.clerk Fixtures.parse_uuid
                Fixtures.is_url _ _ _ resp w' world0_pk_unique Hrun)
      as [Hsame _].
    simpl snd. rewrite Hsame. reflexivity.
Defined.

(** [test_create_account], with a [clerk_id] of another user put in the
    body: the record is stamped with the identifier of the caller. *)
Lemma create_ignores_client_clerk_id :
  exists a,
    db (snd (AccountViewset_create Fixtures.clerk Fixtures.is_url
               (Fixtures.api_request "new_user_token"
                  {[ "username" := Some "newuser";
                     "clerk_id" := Some "clerk_user_2" ]})
               3%N 300%Z Fixtures.world0))
    = db Fixtures.world0 ++ [a]
    /\ clerk_id a = Some "clerk_new_user".
Proof.
  destruct (AccountViewset_create Fixtures.clerk Fixtures.is_url
              (Fixtures.api_request "new_user_token"
                 {[ "username" := Some "newuser";
                    "clerk_id" := Some "clerk_user_2" ]})
              3%N 300%Z Fixtures.world0) as [[e|resp] w'] eqn:Hrun.
  - vm_compute in Hrun. discriminate.
  - destruct (create_stamps_verified_owner Fixtures.clerk Fixtures.is_url
                _ _ _ _ resp w' Hrun)
      as (u & a & Hu & Hdb & _ & Hown & _).
    exists a. split; [exact Hdb|].
    rewrite Hown. vm_compute in Hu. injection Hu as <-. reflexivity.
Defined.

(** * Further runs on the fixtures *)

Example resolve_cases :
  resolve "" = Some (AccountViewset_collection, [])
  /\ resolve "list/" = Some (AccountViewset_detail, [("pk", "list")])
  /\ resolve (Fixtures.uuid1 +:+ "/")
     = Some (AccountViewset_detail, [("pk", Fixtures.uuid1)])
  /\ resolve ("retrieve/" +:+ Fixtures.uuid1 +:+ "/")
     = Some (AccountRetrieveView, [("pk", Fixtures.uuid1)])
  /\ resolve "retrieve/" = Some (AccountViewset_detail, [("pk", "retrieve")])
  /\ resolve "a/b/" = None
  /\ resolve "list" = None.
Proof. repeat split; vm_compute; reflexivity. Qed.

(** [test_account_str_method], and an account without username. *)
Example Account__str__cases :
  Account__str__ Fixtures.account1 = Some "user1"
  /\ uuid_str 0x123e4567e89b12d3a456426614174000
     = "123e4567-e89b-12d3-a456-426614174000"
  /\ Account__str__
       (mkAccount 0x123e4567e89b12d3a456426614174000 None None None 0)
     = Some "123e4567"
  /\ Account__str__
       (mkAccount 0x123e4567e89b12d3a456426614174000 None (Some "") None 0)
     = Some "123e4567".
Proof. repeat split; vm_compute; reflexivity. Qed.

Example MessageCreateSerializer_validate_cases :
  MessageCreateSerializer_validate
    {[ "chat_type" := MText "user"; "text_content" := MText "hello" ]}
  = inl user_chat_is_required
  /\ MessageCreateSerializer_validate
       {[ "chat_type" := MText "group"; "user_chat" := MChat 7 ]}
     = inl group_chat_is_required
  /\ MessageCreateSerializer_validate
       {[ "chat_type" := MText "user"; "user_chat" := MChat 7;
          "group_chat" := MChat 8 ]}
     = inr {[ "chat_type" := MText "user"; "user_chat" := MChat 7;
              "group_chat" := MChat 8 ]}
  /\ MessageCreateSerializer_validate {[ "text_content" := MText "hello" ]}
     = inr {[ "text_content" := MText "hello" ]}.
Proof. repeat split; vm_compute; reflexivity. Qed.

Lemma anonymous_never_verifies (w : World) (u : option string) :
  fst (verify_auth_token Fixtures.clerk
         (META Fixtures.anonymous_request !! "HTTP_AUTHORIZATION") w)
  <> inr u.
Proof. discriminate. Qed.

Lemma world0_table_constraints : table_constraints (db Fixtures.world0).
Proof.
  split; [apply world0_pk_unique|].
  split; intros a b Ha Hb _ Heq; simpl in Ha, Hb;
    apply elem_of_cons in Ha; apply elem_of_cons in Hb;
    rewrite list_elem_of_singleton in Ha, Hb;
    destruct Ha as [->| ->], Hb as [->| ->];
    try reflexivity; discriminate.
Qed.

Lemma world0_usernames_bounded : usernames_bounded (db Fixtures.world0).
Proof.
  intros a s Ha Hs. simpl in Ha. apply elem_of_cons in Ha.
  rewrite list_elem_of_singleton in Ha.
  destruct Ha as [->| ->]; injection Hs as <-; simpl; lia.
Qed.

(** [GET list/] by the caller verified as [clerk_user_1]. *)
Lemma list_route_answers_404 :
  fst (run_action Fixtures.clerk Fixtures.parse_uuid Fixtures.is_url
         (ActViewsetRetrieve "list") (Fixtures.api_request "valid_token" ∅)
         3%N 300%Z Fixtures.world0)
  = inl Http404.
Proof.
  apply (AccountsListView_is_shadowed Fixtures.clerk Fixtures.parse_uuid
           Fixtures.is_url (Fixtures.api_request "valid_token" ∅)
           3%N 300%Z Fixtures.world0 (Some "clerk_user_1")).
  - reflexivity.
  - apply valid_token_verifies.
Defined.

(** The list action refuses the request without credential. *)
Lemma anonymous_list_refused :
  refuses (AccountViewset_list Fixtures.clerk Fixtures.anonymous_request)
    Fixtures.world0.
Proof.
  apply (views_refuse_unverified Fixtures.clerk Fixtures.parse_uuid
           Fixtures.is_url Fixtures.anonymous_request "" 3%N 300%Z
           Fixtures.world0).
  apply anonymous_never_verifies.
Defined.

(** A create with a username of seventeen characters and a token that the
    provider rejects. *)
Lemma create_invalid_body_first :
  AccountViewset_create Fixtures.clerk Fixtures.is_url
    (Fixtures.api_request "invalid_token"
       {[ "username" := Some "seventeen_chars_x" ]})
    3%N 300%Z Fixtures.world0
  = (inl ValidationError, Fixtures.world0).
Proof.
  apply (create_validates_first Fixtures.clerk Fixtures.is_url
           (Fixtures.api_request "invalid_token"
              {[ "username" := Some "seventeen_chars_x" ]})
           3%N 300%Z Fixtures.world0 ValidationError).
  vm_compute. reflexivity.
Defined.

(** [PUT] on the record of the other user. *)
Lemma update_other_account_404 :
  fst (AccountViewset_update Fixtures.clerk Fixtures.parse_uuid
         Fixtures.is_url
         (Fixtures.api_request "valid_token"
            {[ "username" := Some "hacked_user2" ]})
         Fixtures.uuid2 Fixtures.world0)
  = inl Http404.
Proof.
  destruct (update_agrees_with_partial_update Fixtures.clerk
              Fixtures.parse_uuid Fixtures.is_url
              (Fixtures.api_request "valid_token"
                 {[ "username" := Some "hacked_user2" ]})
              Fixtures.uuid2 Fixtures.world0 (Some "clerk_user_1")
              Fixtures.account2) as (_ & _ & H).
  - apply valid_token_verifies.
  - apply world0_pk_unique.
  - right. left.
  - reflexivity.
  - apply H. discriminate.
Defined.

(** The partial update of the own record calls the provider three
    times. *)
Lemma partial_update_calls_provider_thrice :
  emitted
    (AccountViewset_partial_update Fixtures.clerk Fixtures.parse_uuid
       Fixtures.is_url
       (Fixtures.api_request "valid_token"
          {[ "username" := Some "updated_user1" ]})
       Fixtures.uuid1) Fixtures.world0
  = [EvSessionsGet "valid_token"; EvSessionsGet "valid_token";
     EvSessionsGet "valid_token"].
Proof.
  destruct (provider_calls_per_action Fixtures.clerk Fixtures.parse_uuid
              Fixtures.is_url
              (Fixtures.api_request "valid_token"
                 {[ "username" := Some "updated_user1" ]})
              "valid_token" Fixtures.uuid1 3%N 300%Z Fixtures.world0
              (Some "clerk_user_1"))
    as (_ & _ & _ & _ & _ & _ & H).
  - reflexivity.
  - vm_compute. reflexivity.
  - rewrite H. reflexivity.
Defined.

(** The table after [test_create_account] respects its constraints. *)
Lemma create_keeps_constraints_on_fixture :
  table_constraints
    (db (snd (AccountViewset_create Fixtures.clerk Fixtures.is_url
                (Fixtures.api_request "new_user_token"
                   {[ "username" := Some "newuser" ]})
                3%N 300%Z Fixtures.world0))).
Proof.
  apply (table_constraints_kept Fixtures.clerk Fixtures.parse_uuid
           Fixtures.is_url
           (Fixtures.api_request "new_user_token"
              {[ "username" := Some "newuser" ]})
           "" 3%N 300%Z Fixtures.world0).
  apply world0_table_constraints.
Defined.

Lemma create_keeps_usernames_bounded_on_fixture :
  usernames_bounded
    (db (snd (AccountViewset_create Fixtures.clerk Fixtures.is_url
                (Fixtures.api_request "new_user_token"
                   {[ "username" := Some "newuser" ]})
                3%N 300%Z Fixtures.world0))).
Proof.
  apply (usernames_bounded_kept Fixtures.clerk Fixtures.parse_uuid
           Fixtures.is_url
           (Fixtures.api_request "new_user_token"
              {[ "username" := Some "newuser" ]})
           "" 3%N 300%Z Fixtures.world0).
  apply world0_usernames_bounded.
Defined.

(** [test_account_ordering] through [AccountsListView]. *)
Lemma list_view_sorted_on_fixture :
  exists rs,
    fst (AccountsListView_list Fixtures.clerk
           (Fixtures.api_request "valid_token" ∅) Fixtures.world0)
    = inr {| status_code := 200; rdata := Many (map to_representation rs) |}
    /\ rs ≡ₚ db Fixtures.world0 /\ Sorted created_le rs.
Proof.
  apply (list_actions_order Fixtures.clerk
           (Fixtures.api_request "valid_token" ∅) Fixtures.world0
           (Some "clerk_user_1")).
  apply valid_token_verifies.
Defined.

(** The caller verified as [clerk_user_1] has a record already. *)
Lemma create_second_account_refused :
  db (snd (AccountViewset_create Fixtures.clerk Fixtures.is_url
             (Fixtures.api_request "valid_token"
                {[ "username" := Some "another" ]})
             3%N 300%Z Fixtures.world0))
  = db Fixtures.world0.
Proof.
  apply (create_refuses_second_account Fixtures.clerk Fixtures.is_url
           (Fixtures.api_request "valid_token"
              {[ "username" := Some "another" ]})
           3%N 300%Z Fixtures.world0 "clerk_user_1" Fixtures.account1).
  - apply valid_token_verifies.
  - left.
  - reflexivity.
Defined.


(** [test_list_accounts_filtered_by_clerk_id] behind the gate. *)
Lemma list_behind_gate_on_fixture :
  fst (ClerkAuthMiddleware_call Fixtures.clerk
         {| get_response := as_pipeline (AccountViewset_list Fixtures.clerk) |}
         (Fixtures.api_request "valid_token" ∅) Fixtures.world0)
  = inr {| status_code := 200;
           rdata := Many [to_representation Fixtures.account1] |}.
Proof.
  destruct (list_behind_gate Fixtures.clerk
              (Fixtures.api_request "valid_token" ∅) "valid_token"
              Fixtures.world0 (Some "clerk_user_1")) as (H & _).
  - reflexivity.
  - reflexivity.
  - reflexivity.
  - vm_compute. reflexivity.
  - rewrite H. reflexivity.
Defined.

(** The update of [test_partial_update_own_account] leaves the row of the
    other user in its place. *)
Lemma partial_update_frame_on_fixture :
  db (snd (AccountViewset_partial_update Fixtures.clerk Fixtures.parse_uuid
             Fixtures.is_url
             (Fixtures.api_request "valid_token"
                {[ "username" := Some "updated_user1" ]})
             Fixtures.uuid1 Fixtures.world0)) !! 1%nat
  = Some Fixtures.account2.
Proof.
  destruct (AccountViewset_partial_update Fixtures.clerk
              Fixtures.parse_uuid Fixtures.is_url
              (Fixtures.api_request "valid_token"
                 {[ "username" := Some "updated_user1" ]})
              Fixtures.uuid1 Fixtures.world0) as [[e|resp] w'] eqn:Hrun.
  - vm_compute in Hrun. discriminate.
  - destruct (partial_update_frame Fixtures.clerk Fixtures.parse_uuid
                Fixtures.is_url _ _ _ resp w' Hrun)
      as (a & a' & _ & Hid & _ & _ & _ & _ & _ & _ & _ & Hframe).
    apply Hframe; [reflexivity|].
    change (Some 1%N = Some (account_id a)) in Hid. injection Hid as <-.
    discriminate.
Defined.

(** The account of [test_create_account], read back by its owner. *)
Lemma create_then_retrieve_on_fixture :
  fst (AccountViewset_retrieve Fixtures.clerk Fixtures.parse_uuid
         (Fixtures.api_request "new_user_token"
            {[ "username" := Some "newuser" ]})
         Fixtures.uuid9
         (snd (AccountViewset_create Fixtures.clerk Fixtures.is_url
                 (Fixtures.api_request "new_user_token"
                    {[ "username" := Some "newuser" ]})
                 9%N 300%Z Fixtures.world0)))
  = inr {| status_code := 200;
           rdata := One (to_representation
                           (mkAccount 9 (Some "clerk_new_user")
                              (Some "newuser") None 300)) |}.
Proof.
  destruct (AccountViewset_create Fixtures.clerk Fixtures.is_url
              (Fixtures.api_request "new_user_token"
                 {[ "username" := Some "newuser" ]})
              9%N 300%Z Fixtures.world0) as [[e|resp] w'] eqn:Hrun.
  - vm_compute in Hrun. discriminate.
  - destruct (create_then_retrieve Fixtures.clerk Fixtures.parse_uuid
                Fixtures.is_url _ Fixtures.uuid9 _ _ _ resp w'
                world0_pk_unique eq_refl Hrun) as (_ & H & _).
    simpl snd. rewrite H. vm_compute in Hrun. injection Hrun as <- _.
    reflexivity.
Defined.

(** The update of [test_partial_update_own_account], read back. *)
Lemma partial_update_then_retrieve_on_fixture :
  fst (AccountViewset_retrieve Fixtures.clerk Fixtures.parse_uuid
         (Fixtures.api_request "valid_token"
            {[ "username" := Some "updated_user1" ]})
         Fixtures.uuid1
         (snd (AccountViewset_partial_update Fixtures.clerk
                 Fixtures.parse_uuid Fixtures.is_url
                 (Fixtures.api_request "valid_token"
                    {[ "username" := Some "updated_user1" ]})
                 Fixtures.uuid1 Fixtures.world0)))
  = inr {| status_code := 200;
           rdata := One (to_representation
                           (mkAccount 1 (Some "clerk_user_1")
                              (Some "updated_user1")
                              (Some "https://example.com/user1.jpg")
                              100)) |}.
Proof.
  destruct (AccountViewset_partial_update Fixtures.clerk
              Fixtures.parse_uuid Fixtures.is_url
              (Fixtures.api_request "valid_token"
                 {[ "username" := Some "updated_user1" ]})
              Fixtures.uuid1 Fixtures.world0) as [[e|resp] w'] eqn:Hrun.
  - vm_compute in Hrun. discriminate.
  - destruct (partial_update_then_retrieve Fixtures.clerk
                Fixtures.parse_uuid Fixtures.is_url _ _ _ resp w'
                world0_pk_unique Hrun) as (H & _).
    simpl snd. rewrite H. vm_compute in Hrun. injection Hrun as <- _.
    reflexivity.
Defined.
